(** * minitorch/modules_basic.py: Embedding, Dropout, Linear, LayerNorm1d

    A shallow embedding of the four layer modules of
    [minitorch/modules_basic.py].  Tensors hold real numbers: the float32
    storage of the library is idealised to exact arithmetic, so every
    statement below is about the values the layers compute before
    rounding.

    The tensor operators the layers call ([one_hot], [view], [@],
    broadcasting arithmetic, [sum]/[mean] along a dimension) and the
    [Module]/[Parameter] base classes live in other files of the
    package; they are modelled here under a doc comment that says so.
    numpy's random generator is modelled as a tape of draws that is
    threaded through every call that samples. *)

From Stdlib Require Import List Arith Lia ZArith Reals Lra Bool.
Import ListNotations.

Set Implicit Arguments.

(** ** Python exceptions and the result type *)

Inductive exn : Type :=
| ValueError
| IndexError
| IndexingError
| ZeroDivisionError
| AttributeError
| AssertionError
| NotImplementedError.

Inductive result (A : Type) : Type :=
| Ok (a : A)
| Raise (e : exn).

Arguments Ok {A} a.
Arguments Raise {A} e.

Definition rbind {A B : Type} (r : result A) (k : A -> result B) : result B :=
  match r with
  | Ok a => k a
  | Raise e => Raise e
  end.

(** A Python computation over a mutable state [S]: it returns or raises,
    and either way leaves a state behind. *)
Definition Py (S A : Type) : Type := S -> result A * S.

Definition ret {S A : Type} (a : A) : Py S A := fun s => (Ok a, s).

Definition bind {S A B : Type} (c : Py S A) (k : A -> Py S B) : Py S B :=
  fun s =>
    match c s with
    | (Ok a, s') => k a s'
    | (Raise e, s') => (Raise e, s')
    end.

Definition lift {S A : Type} (r : result A) : Py S A := fun s => (r, s).

Definition reads {S A : Type} (f : S -> A) : Py S A := fun s => (Ok (f s), s).

(** Reading the state where the read itself may raise. *)
Definition attempt {S A : Type} (f : S -> result A) : Py S A := fun s => (f s, s).

Declare Scope py_scope.
Delimit Scope py_scope with py.
Notation "x <- c ;; k" := (bind c (fun x => k))
  (at level 61, c at next level, right associativity) : py_scope.
Notation "' pat <- c ;; k" := (bind c (fun x => match x with pat => k end))
  (at level 61, pat pattern, c at next level, right associativity) : py_scope.

(** ** Shapes, indices and positions

    Modelled from the spec: the tensor storage layer ([tensor_data.py]) is
    not part of this file.  A tensor is contiguous and row-major: the
    position of a multi-index is the sum of its entries weighted by the
    sizes of the dimensions to their right. *)

Module Shape.

Fixpoint prod (shape : list nat) : nat :=
  match shape with
  | [] => 1
  | sh :: rest => sh * prod rest
  end.

(** The multi-index of storage position [ordinal]. *)
Fixpoint to_index (shape : list nat) (ordinal : nat) : list nat :=
  match shape with
  | [] => []
  | sh :: rest => (ordinal / prod rest) mod sh :: to_index rest ordinal
  end.

(** The storage position of a multi-index. *)
Fixpoint index_to_position (shape index : list nat) : nat :=
  match shape, index with
  | sh :: rest, i :: index' => i * prod rest + index_to_position rest index'
  | _, _ => 0
  end.

(** The index into a tensor of shape [shape] that an index into the
    broadcast (bigger) shape reads: dimensions are aligned on the right
    and a dimension of size 1 is read at 0. *)
Definition broadcast_index (big_index shape : list nat) : list nat :=
  map (fun si => if 1 <? fst si then snd si else 0)
      (combine shape (skipn (length big_index - length shape) big_index)).

(** Two sizes broadcast together when they are equal or one of them is 1. *)
Definition dim_broadcast (x y : nat) : result nat :=
  if x =? y then Ok x
  else if x =? 1 then Ok y
  else if y =? 1 then Ok x
  else Raise IndexingError.

Fixpoint broadcast_rev (a b : list nat) : result (list nat) :=
  match a, b with
  | [], _ => Ok b
  | _, [] => Ok a
  | x :: a', y :: b' =>
      rbind (dim_broadcast x y) (fun d =>
      rbind (broadcast_rev a' b') (fun r => Ok (d :: r)))
  end.

Definition shape_broadcast (a b : list nat) : result (list nat) :=
  rbind (broadcast_rev (rev a) (rev b)) (fun r => Ok (rev r)).

(** [index] with its entry at [dim] replaced by [k]. *)
Fixpoint set_dim (dim k : nat) (index : list nat) : list nat :=
  match index, dim with
  | [], _ => []
  | _ :: rest, O => k :: rest
  | i :: rest, S dim' => i :: set_dim dim' k rest
  end.

End Shape.

(** ** Tensors *)

Definition tabulate {A : Type} (n : nat) (f : nat -> A) : list A :=
  map f (seq 0 n).

Definition sum_list (l : list R) : R := fold_right Rplus 0%R l.

(** The sum of [f 0], ..., [f (n - 1)]. *)
Definition rsum (n : nat) (f : nat -> R) : R := sum_list (tabulate n f).

(** Modelled from the spec: [Tensor] is defined in [tensor.py].  Only the
    shape and the values in row-major order are kept; strides, the
    backend handle and the autodiff history play no part in the values
    the layers return. *)
Record Tensor : Type := mkTensor {
  shape : list nat;
  data : list R
}.

Definition size (t : Tensor) : nat := Shape.prod (shape t).

(** The storage invariant of a tensor. *)
Definition Tensor_wf (t : Tensor) : Prop := length (data t) = size t.

(** The value at a storage position and at a multi-index. *)
Definition at_pos (t : Tensor) (p : nat) : R := nth p (data t) 0%R.

Definition get (t : Tensor) (index : list nat) : R :=
  at_pos t (Shape.index_to_position (shape t) index).

(** ** The tensor operators the layers call

    Modelled from the spec: [tensor.py], [tensor_functions.py],
    [tensor_ops.py] and [nn.py] are not part of this file.  The spec
    names the operators (broadcasting arithmetic, matrix multiply,
    reduction, reshape, [one_hot]); each is given its usual meaning. *)

Module TensorOps.

(** Modelled from the spec: broadcasting arithmetic.  The result has the
    broadcast shape, and each operand is read at the index the result
    index broadcasts to. *)
Definition zip (f : R -> R -> R) (a b : Tensor) : result Tensor :=
  rbind (Shape.shape_broadcast (shape a) (shape b)) (fun s =>
  Ok (mkTensor s
        (tabulate (Shape.prod s) (fun p =>
           let index := Shape.to_index s p in
           f (get a (Shape.broadcast_index index (shape a)))
             (get b (Shape.broadcast_index index (shape b))))))).

(** Modelled from the spec: arithmetic with a Python float operand, which
    is applied to every element. *)
Definition map_scalar (f : R -> R) (a : Tensor) : Tensor :=
  mkTensor (shape a) (map f (data a)).

Definition add (a b : Tensor) : result Tensor := zip Rplus a b.
Definition sub (a b : Tensor) : result Tensor := zip Rminus a b.
Definition mul (a b : Tensor) : result Tensor := zip Rmult a b.
Definition truediv (a b : Tensor) : result Tensor := zip Rdiv a b.

Definition add_scalar (a : Tensor) (c : R) : Tensor :=
  map_scalar (fun v => v + c)%R a.
Definition truediv_scalar (a : Tensor) (c : R) : Tensor :=
  map_scalar (fun v => v / c)%R a.

(** [v ** e] on reals: the real power of a positive base, and 0 at a base
    that is not positive (where floating point gives 0 for base 0 and a
    positive exponent, and has no real value for a negative base). *)
Definition pow_real (v e : R) : R :=
  if Rlt_dec 0 v then Rpower v e else 0%R.

Definition pow_scalar (a : Tensor) (e : R) : Tensor :=
  map_scalar (fun v => pow_real v e) a.

(** Modelled from the spec: reshape.  [view] keeps the storage and
    demands that the new shape has as many elements. *)
Definition view (a : Tensor) (new_shape : list nat) : result Tensor :=
  if Shape.prod new_shape =? length (data a)
  then Ok (mkTensor new_shape (data a))
  else Raise AssertionError.

(** Modelled from the spec: reduction.  [sum] along [dim] keeps the
    dimension with size 1. *)
Definition sum (a : Tensor) (dim : nat) : result Tensor :=
  if dim <? length (shape a) then
    let out_shape := Shape.set_dim dim 1 (shape a) in
    Ok (mkTensor out_shape
          (tabulate (Shape.prod out_shape) (fun p =>
             let index := Shape.to_index out_shape p in
             rsum (nth dim (shape a) 0) (fun k =>
               get a (Shape.set_dim dim k index)))))
  else Raise IndexError.

(** [mean(dim)] is [sum(dim)] divided by the size of that dimension. *)
Definition mean (a : Tensor) (dim : nat) : result Tensor :=
  rbind (sum a dim) (fun s =>
  Ok (truediv_scalar s (INR (nth dim (shape a) 0)))).

(** Modelled from the spec: matrix multiply, for the two-dimensional
    operands every layer of this file passes.  Operands of other ranks
    (batched products) are outside this development. *)
Definition matmul (a b : Tensor) : result Tensor :=
  match shape a, shape b with
  | [n; k], [k'; m] =>
      if k =? k' then
        Ok (mkTensor [n; m]
              (tabulate (n * m) (fun p =>
                 rsum k (fun l =>
                   at_pos a (p / m * k + l) * at_pos b (l * m + p mod m))%R)))
      else Raise AssertionError
  | _, _ => Raise NotImplementedError
  end.

(** [astype(int)]: truncation toward zero. *)
Definition astype_int (v : R) : Z :=
  if Rle_dec 0 v then Int_part v else (- Int_part (- v))%Z.

Definition class_index (num_classes : nat) (v : R) : result nat :=
  let i := astype_int v in
  if ((0 <=? i) && (i <? Z.of_nat num_classes))%Z
  then Ok (Z.to_nat i)
  else Raise IndexError.

Fixpoint mapM {A B : Type} (f : A -> result B) (l : list A) : result (list B) :=
  match l with
  | [] => Ok []
  | a :: l' =>
      rbind (f a) (fun b => rbind (mapM f l') (fun bs => Ok (b :: bs)))
  end.

(** Modelled from the spec: [one_hot] of [nn.py].  A tensor of class
    indices becomes a tensor with one more, last, dimension of size
    [num_classes], that is 1 where the last index is the class and 0
    elsewhere. *)
Definition one_hot (input : Tensor) (num_classes : nat) : result Tensor :=
  rbind (mapM (class_index num_classes) (data input)) (fun classes =>
  Ok (mkTensor (shape input ++ [num_classes])
        (tabulate (length classes * num_classes) (fun p =>
           if nth (p / num_classes) classes 0 =? p mod num_classes
           then 1%R else 0%R)))).

End TensorOps.

(** [a, b = x.shape] *)
Definition unpack2 (s : list nat) : result (nat * nat) :=
  match s with
  | [a; b] => Ok (a, b)
  | _ => Raise ValueError
  end.

(** ** numpy

    An array is a shape and its values.  The global generator is a tape of
    draws and the number of draws consumed so far; sampling reads the tape
    from there and moves on. *)

Record ndarray : Type := mkArray {
  np_shape : list nat;
  np_data : list R
}.

Record RandomState : Type := mkRandomState {
  normal_draw : nat -> R;
  uniform_draw : nat -> R;
  consumed : nat
}.

Definition advance (n : nat) (g : RandomState) : RandomState :=
  mkRandomState (normal_draw g) (uniform_draw g) (consumed g + n).

Module np.

Definition ones (shp : list nat) : ndarray :=
  mkArray shp (tabulate (Shape.prod shp) (fun _ => 1%R)).

Definition zeros (shp : list nat) : ndarray :=
  mkArray shp (tabulate (Shape.prod shp) (fun _ => 0%R)).

(** [astype(np.float32)]: the identity on the idealised values.  Rounding
    to float32 is not modelled: 0 and 1 are kept exactly by the cast, and
    nothing below speaks of the stored value of a sampled weight. *)
Definition astype_float32 (a : ndarray) : ndarray := a.

Module random.

Definition randn (dims : list nat) : Py RandomState ndarray :=
  fun g =>
    (Ok (mkArray dims
           (tabulate (Shape.prod dims) (fun i => normal_draw g (consumed g + i)))),
     advance (Shape.prod dims) g).

Definition uniform (low high : R) (size : list nat) : Py RandomState ndarray :=
  fun g =>
    (Ok (mkArray size
           (tabulate (Shape.prod size) (fun i =>
              low + (high - low) * uniform_draw g (consumed g + i))%R)),
     advance (Shape.prod size) g).

(** One Bernoulli trial with success probability [p], decided by a
    uniform draw [u] the way numpy's inversion sampler decides it: for
    [p <= 0.5] the trial succeeds when [u > 1 - p]; for [p > 0.5] numpy
    samples the failures with probability [1 - p], and the trial succeeds
    when [u <= p]. *)
Definition bernoulli (p u : R) : R :=
  if Rle_dec p 0.5
  then (if Rlt_dec (1 - p) u then 1%R else 0%R)
  else (if Rle_dec u p then 1%R else 0%R).

(** [binomial(n, p, size)]: the number of successes in [n] trials, per
    element; [p] outside [0, 1] is rejected. *)
Definition binomial (n : nat) (p : R) (size : list nat) : Py RandomState ndarray :=
  fun g =>
    if Rlt_dec p 0 then (Raise ValueError, g)
    else if Rlt_dec 1 p then (Raise ValueError, g)
    else
      (Ok (mkArray size
             (tabulate (Shape.prod size) (fun i =>
                rsum n (fun k =>
                  bernoulli p (uniform_draw g (consumed g + i * n + k)))))),
       advance (Shape.prod size * n) g).

End random.
End np.

(** [math.sqrt] on a nonnegative integer, and float division. *)
Definition float_div (a b : R) : result R :=
  if Req_dec_T b 0 then Raise ZeroDivisionError else Ok (a / b)%R.

(** Modelled from the spec: [tensor_from_numpy] of [tensor_functions.py]
    wraps the array's shape and values. *)
Definition tensor_from_numpy (ls : ndarray) : Tensor :=
  mkTensor (np_shape ls) (np_data ls).

(** Modelled from the spec: [TensorBackend] of [tensor_ops.py], a handle on
    a set of kernels.  Every set of kernels computes the same values. *)
Variant TensorBackend : Type := Backend (kernels : nat).

(** Modelled from the spec: the [Parameter] class of [module.py], a box
    around a tensor (the class name is a reserved word here). *)
Record Param : Type := mkParam { value : Tensor }.

(** What a method can reach: its module object and numpy's global
    generator. *)
Record World (M : Type) : Type := mkWorld {
  self : M;
  np_random : RandomState
}.

Definition with_random {M A : Type} (c : Py RandomState A) : Py (World M) A :=
  fun w =>
    let (r, g) := c (np_random w) in
    (r, mkWorld (self w) g).

Definition Req_bool (a b : R) : bool := if Req_dec_T a b then true else false.

(** ** The layers of [modules_basic.py]

    Modelled from the spec: the [Module] base class of [module.py] gives
    every module a [training] flag, set by [super().__init__()]. *)

Module Embedding.

Record t : Type := mk {
  backend : TensorBackend;
  num_embeddings : nat;
  embedding_dim : nat;
  weights : Param;
  training : bool
}.

Definition __init__ (num_embeddings embedding_dim : nat) (backend : TensorBackend)
  : Py RandomState t :=
  (vals <- np.random.randn [num_embeddings; embedding_dim] ;;
   ret (mk backend num_embeddings embedding_dim
           (mkParam (tensor_from_numpy (np.astype_float32 vals)))
           true))%py.

Definition forward (x : Tensor) : Py (World t) Tensor :=
  ('(bs, seq_len) <- lift (unpack2 (shape x)) ;;
   n <- reads (fun w => num_embeddings (self w)) ;;
   x_one_hot <- lift (TensorOps.one_hot x n) ;;
   x_flat <- lift (TensorOps.view x_one_hot [bs * seq_len; n]) ;;
   w <- reads (fun w => value (weights (self w))) ;;
   out_flat <- lift (TensorOps.matmul x_flat w) ;;
   d <- reads (fun w => embedding_dim (self w)) ;;
   lift (TensorOps.view out_flat [bs; seq_len; d]))%py.

End Embedding.

Module Dropout.

Record t : Type := mk {
  p_dropout : R;
  training : bool
}.

Definition __init__ (p_dropout : R) : t := mk p_dropout true.

Definition forward (x : Tensor) : Py (World t) Tensor :=
  (is_training <- reads (fun w => training (self w)) ;;
   p <- reads (fun w => p_dropout (self w)) ;;
   if negb is_training || Req_bool p 0 then ret x
   else
     mask_np <- with_random (np.random.binomial 1 (1 - p) (shape x)) ;;
     let mask_t := tensor_from_numpy (np.astype_float32 mask_np) in
     masked <- lift (TensorOps.mul x mask_t) ;;
     ret (TensorOps.truediv_scalar masked (1.0 - p)))%py.

End Dropout.

Module Linear.

Record t : Type := mk {
  backend : TensorBackend;
  in_size : nat;
  out_size : nat;
  use_bias : bool;
  weights : Param;
  bias : option Param;
  training : bool
}.

Definition __init__ (in_size out_size : nat) (bias : bool) (backend : TensorBackend)
  : Py RandomState t :=
  (limit <- lift (float_div 1.0 (sqrt (INR in_size))) ;;
   w_vals <- np.random.uniform (- limit) limit [in_size; out_size] ;;
   let weights := mkParam (tensor_from_numpy (np.astype_float32 w_vals)) in
   if bias then
     b_vals <- np.random.uniform (- limit) limit [out_size] ;;
     ret (mk backend in_size out_size bias weights
             (Some (mkParam (tensor_from_numpy (np.astype_float32 b_vals))))
             true)
   else
     ret (mk backend in_size out_size bias weights None true))%py.

(** [self.bias.value] *)
Definition bias_value (m : t) : result Tensor :=
  match bias m with
  | Some b => Ok (value b)
  | None => Raise AttributeError
  end.

Definition forward (x : Tensor) : Py (World t) Tensor :=
  ('(batch, in_size) <- lift (unpack2 (shape x)) ;;
   w <- reads (fun w => value (weights (self w))) ;;
   out <- lift (TensorOps.matmul x w) ;;
   with_bias <- reads (fun w => use_bias (self w)) ;;
   if with_bias then
     b <- attempt (fun w => bias_value (self w)) ;;
     lift (TensorOps.add out b)
   else ret out)%py.

End Linear.

Module LayerNorm1d.

Record t : Type := mk {
  dim : nat;
  eps : R;
  backend : TensorBackend;
  weights : Param;
  bias : Param;
  training : bool
}.

Definition __init__ (dim : nat) (eps : R) (backend : TensorBackend) : t :=
  let w := np.ones [dim] in
  let b := np.zeros [dim] in
  mk dim eps backend
     (mkParam (tensor_from_numpy w))
     (mkParam (tensor_from_numpy b))
     true.

Definition forward (x : Tensor) : Py (World t) Tensor :=
  ('(batch, dim) <- lift (unpack2 (shape x)) ;;
   mean <- lift (TensorOps.mean x 1) ;;
   mean <- lift (TensorOps.view mean [batch; 1]) ;;
   diff <- lift (TensorOps.sub x mean) ;;
   sq <- lift (TensorOps.mul diff diff) ;;
   var <- lift (TensorOps.mean sq 1) ;;
   var <- lift (TensorOps.view var [batch; 1]) ;;
   e <- reads (fun w => eps (self w)) ;;
   x_hat <- lift (TensorOps.truediv diff
                    (TensorOps.pow_scalar (TensorOps.add_scalar var e) 0.5)) ;;
   w <- reads (fun w => value (weights (self w))) ;;
   scaled <- lift (TensorOps.mul x_hat w) ;;
   b <- reads (fun w => value (bias (self w))) ;;
   lift (TensorOps.add scaled b))%py.

End LayerNorm1d.

(** ** What a constructor establishes, and the layers as the docstrings
    describe them *)

(** A tensor of the given shape that satisfies the storage invariant. *)
Definition has_shape (t : Tensor) (s : list nat) : Prop :=
  shape t = s /\ Tensor_wf t.

Definition Embedding_wf (m : Embedding.t) : Prop :=
  has_shape (value (Embedding.weights m))
            [Embedding.num_embeddings m; Embedding.embedding_dim m].

Definition Linear_wf (m : Linear.t) : Prop :=
  has_shape (value (Linear.weights m)) [Linear.in_size m; Linear.out_size m] /\
  match Linear.bias m with
  | Some b => Linear.use_bias m = true /\ has_shape (value b) [Linear.out_size m]
  | None => Linear.use_bias m = false
  end.

Definition LayerNorm1d_wf (m : LayerNorm1d.t) : Prop :=
  has_shape (value (LayerNorm1d.weights m)) [LayerNorm1d.dim m] /\
  has_shape (value (LayerNorm1d.bias m)) [LayerNorm1d.dim m].

(** Every entry of [x] is an integer in [0, num_classes). *)
Definition class_indices (num_classes : nat) (x : Tensor) : Prop :=
  Forall (fun v => exists k, k < num_classes /\ v = INR k) (data x).

(** Row [i] of a two-dimensional tensor. *)
Definition row (t : Tensor) (i : nat) : list R :=
  let d := nth 1 (shape t) 0 in
  firstn d (skipn (i * d) (data t)).

(** The arithmetic mean and the biased (divide by the length) variance of
    a list of reals. *)
Definition list_mean (l : list R) : R := (sum_list l / INR (length l))%R.

Definition list_var (l : list R) : R :=
  list_mean (map (fun v => (v - list_mean l) * (v - list_mean l))%R l).

(** Layer normalisation of one row, as the docstring states it. *)
Definition layer_norm_row (eps : R) (w b xs : list R) : list R :=
  tabulate (length xs) (fun j =>
    ((nth j xs 0 - list_mean xs) / sqrt (list_var xs + eps) * nth j w 0
     + nth j b 0)%R).

(** The affine map of one output entry: row [i] of [x] times column [j]
    of the weights. *)
Definition dot_row_col (x w : Tensor) (k m i j : nat) : R :=
  rsum k (fun l => at_pos x (i * k + l) * at_pos w (l * m + j))%R.

(** A mask: a tensor whose entries are 0 or 1. *)
Definition is_mask (t : Tensor) : Prop :=
  Forall (fun v => v = 0%R \/ v = 1%R) (data t).

(** The result and the final state of running a method. *)
Definition returned {S A : Type} (c : Py S A) (s : S) : result A := fst (c s).
Definition state_after {S A : Type} (c : Py S A) (s : S) : S := snd (c s).

(** The mean of row [i] of a tensor with [d] columns, and the mean of the
    squared deviations from it. *)
Definition row_mean (x : Tensor) (d i : nat) : R :=
  (rsum d (fun k => at_pos x (i * d + k)) / INR d)%R.

Definition row_var (x : Tensor) (d i : nat) : R :=
  (rsum d (fun k => (at_pos x (i * d + k) - row_mean x d i)
                    * (at_pos x (i * d + k) - row_mean x d i)) / INR d)%R.

(** A method that leaves every part of the state as it found it, and one
    that leaves the module object as it found it. *)
Definition read_only {S A : Type} (c : Py S A) : Prop :=
  forall s, state_after c s = s.

Definition keeps_self {M A : Type} (c : Py (World M) A) : Prop :=
  forall w, self (state_after c w) = self w.

(** A method whose result is a function of the module object alone: the
    generator has no part in it. *)
Definition ignores_random {M A : Type} (c : Py (World M) A) : Prop :=
  forall w1 w2, self w1 = self w2 -> returned c w1 = returned c w2.

(** The class indices [one_hot] reads off a list of entries. *)
Definition classes_of (l : list R) : list nat :=
  map (fun v => Z.to_nat (TensorOps.astype_int v)) l.

(** ** Sample objects *)

Module Sample.

Definition cpu : TensorBackend := Backend 0.

(** A generator whose first uniform draw is 1/4 and whose later ones are
    3/4. *)
Definition tape : RandomState :=
  mkRandomState (fun _ => 0%R)
                (fun i => if i =? 0 then 0.25%R else 0.75%R)
                0.

(** A 1 x 2 input. *)
Definition x12 : Tensor := mkTensor [1; 2] [1%R; 3%R].

(** A 1 x 1 tensor of the class index 1. *)
Definition tokens : Tensor := mkTensor [1; 1] [INR 1].

(** A 2 x 2 weight matrix. *)
Definition w22 : Tensor := mkTensor [2; 2] [1%R; 2%R; 3%R; 4%R].

Definition b2 : Tensor := mkTensor [2] [10%R; 20%R].

Definition embedding : Embedding.t :=
  Embedding.mk cpu 2 2 (mkParam w22) true.

Definition linear : Linear.t :=
  Linear.mk cpu 2 2 true (mkParam w22) (Some (mkParam b2)) true.

Definition layer_norm : LayerNorm1d.t := LayerNorm1d.__init__ 2 1%R cpu.

Definition dropout_half : Dropout.t := Dropout.__init__ 0.5%R.

Definition dropout_eval : Dropout.t := Dropout.mk 0.5%R false.

End Sample.

(** * Lemmas *)

(** ** Tabulated lists and finite sums *)

Section Tabulate.
Context {A : Type}.

Lemma tabulate_length (n : nat) (f : nat -> A) : length (tabulate n f) = n.
Proof. unfold tabulate. now rewrite length_map, length_seq. Qed.

Lemma nth_tabulate (n : nat) (f : nat -> A) (p : nat) (d : A) :
  p < n -> nth p (tabulate n f) d = f p.
Proof.
  intros Hp. unfold tabulate.
  rewrite (nth_indep _ d (f 0)) by now rewrite length_map, length_seq.
  rewrite map_nth, seq_nth by assumption. reflexivity.
Qed.

Lemma tabulate_ext (n : nat) (f g : nat -> A) :
  (forall p, p < n -> f p = g p) -> tabulate n f = tabulate n g.
Proof.
  intros H. unfold tabulate. apply map_ext_in.
  intros p Hp. apply in_seq in Hp. apply H. lia.
Qed.

Lemma tabulate_nth (l : list A) (d : A) :
  tabulate (length l) (fun p => nth p l d) = l.
Proof.
  apply nth_ext with (d := d) (d' := d).
  - apply tabulate_length.
  - intros p Hp. rewrite tabulate_length in Hp. now apply nth_tabulate.
Qed.

Lemma map_tabulate {B : Type} (h : A -> B) (n : nat) (f : nat -> A) :
  map h (tabulate n f) = tabulate n (fun p => h (f p)).
Proof. unfold tabulate. now rewrite map_map. Qed.

Lemma tabulate_S (n : nat) (f : nat -> A) :
  tabulate (S n) f = f 0 :: tabulate n (fun p => f (S p)).
Proof. unfold tabulate. simpl. now rewrite <- seq_shift, map_map. Qed.

Lemma tabulate_window (n d i : nat) (f : nat -> A) :
  i < n ->
  firstn d (skipn (i * d) (tabulate (n * d) f))
  = tabulate d (fun j => f (i * d + j)).
Proof.
  intros Hi.
  assert (Hlen : i * d + d <= n * d) by nia.
  destruct (tabulate (n * d) f) as [|a0 l0] eqn:El.
  - assert (Hz : n * d = 0)
      by (rewrite <- (tabulate_length (n * d) f), El; reflexivity).
    assert (d = 0) by nia. subst d.
    now rewrite firstn_O.
  - rewrite <- El.
    apply nth_ext with (d := a0) (d' := a0).
    + rewrite length_firstn, length_skipn, !tabulate_length. lia.
    + intros j Hj.
      rewrite length_firstn, length_skipn, tabulate_length in Hj.
      rewrite nth_firstn.
      assert (Hjd : j < d) by lia.
      apply Nat.ltb_lt in Hjd as Hb. rewrite Hb.
      rewrite nth_skipn, !nth_tabulate by lia. reflexivity.
Qed.

End Tabulate.

Lemma rsum_ext (n : nat) (f g : nat -> R) :
  (forall k, k < n -> f k = g k) -> rsum n f = rsum n g.
Proof. intros H. unfold rsum. now rewrite (tabulate_ext f g H). Qed.

Lemma rsum_S (n : nat) (f : nat -> R) :
  rsum (S n) f = (f 0%nat + rsum n (fun k => f (S k)))%R.
Proof. unfold rsum. now rewrite tabulate_S. Qed.

Lemma rsum_zero (n : nat) (f : nat -> R) :
  (forall k, k < n -> f k = 0%R) -> rsum n f = 0%R.
Proof.
  revert f. induction n as [|n IH]; intros f H.
  - reflexivity.
  - rewrite rsum_S, H, IH by (try lia; intros; apply H; lia). lra.
Qed.

Lemma rsum_plus (n : nat) (f g : nat -> R) :
  rsum n (fun k => f k + g k)%R = (rsum n f + rsum n g)%R.
Proof.
  revert f g. induction n as [|n IH]; intros f g.
  - unfold rsum. simpl. lra.
  - rewrite !rsum_S, IH. lra.
Qed.

Lemma rsum_const (n : nat) (c : R) : rsum n (fun _ => c) = (INR n * c)%R.
Proof.
  induction n as [|n IH].
  - unfold rsum. simpl. lra.
  - rewrite rsum_S, IH, S_INR. lra.
Qed.

(** A sum against an indicator picks one term. *)
Lemma rsum_pick (n k : nat) (g : nat -> R) :
  k < n ->
  rsum n (fun l => (if k =? l then 1 else 0) * g l)%R = g k.
Proof.
  revert k g. induction n as [|n IH]; intros k g Hk; [lia|].
  rewrite rsum_S. destruct k as [|k].
  - rewrite rsum_zero; [simpl; lra|].
    intros l _. simpl. lra.
  - rewrite (rsum_ext _ (fun l => (if k =? l then 1 else 0) * g (S l))%R)
      by reflexivity.
    rewrite (IH k (fun l => g (S l))) by lia. simpl. lra.
Qed.

(** ** Index arithmetic *)

Lemma to_index_length (s : list nat) (p : nat) :
  length (Shape.to_index s p) = length s.
Proof. induction s as [|sh rest IH]; simpl; congruence. Qed.

Lemma position_of_index (s : list nat) (p : nat) :
  Shape.prod s <> 0 ->
  Shape.index_to_position s
    (map (fun si => if 1 <? fst si then snd si else 0)
         (combine s (Shape.to_index s p)))
  = p mod Shape.prod s.
Proof.
  induction s as [|sh rest IH]; intros Hs.
  - cbn [Shape.prod Shape.to_index combine map Shape.index_to_position].
    now rewrite Nat.mod_1_r.
  - cbn [Shape.prod Shape.to_index combine map Shape.index_to_position fst snd] in *.
    assert (Hsh : sh <> 0) by nia.
    assert (Hrest : Shape.prod rest <> 0) by nia.
    rewrite IH by assumption.
    rewrite (Nat.mul_comm sh), Nat.Div0.mod_mul_r.
    destruct (1 <? sh) eqn:E.
    + lia.
    + apply Nat.ltb_ge in E. assert (sh = 1) by lia. subst sh.
      rewrite Nat.mod_1_r. lia.
Qed.

Lemma broadcast_index_same (s : list nat) (p : nat) :
  p < Shape.prod s ->
  Shape.index_to_position s (Shape.broadcast_index (Shape.to_index s p) s) = p.
Proof.
  intros Hp. unfold Shape.broadcast_index.
  rewrite to_index_length, Nat.sub_diag. cbn [skipn].
  rewrite position_of_index by lia. now apply Nat.mod_small.
Qed.

Lemma broadcast_rev_same (s : list nat) : Shape.broadcast_rev s s = Ok s.
Proof.
  induction s as [|x s IH]; [reflexivity|].
  simpl. unfold Shape.dim_broadcast. rewrite Nat.eqb_refl. simpl.
  now rewrite IH.
Qed.

Lemma shape_broadcast_same (s : list nat) : Shape.shape_broadcast s s = Ok s.
Proof.
  unfold Shape.shape_broadcast. rewrite broadcast_rev_same. simpl.
  now rewrite rev_involutive.
Qed.

Lemma dim_broadcast_1_r (d : nat) : Shape.dim_broadcast d 1 = Ok d.
Proof.
  unfold Shape.dim_broadcast.
  destruct (d =? 1) eqn:E; [reflexivity|]. reflexivity.
Qed.

(** [(n, d)] against [(n, 1)]: a column broadcast along the rows. *)
Lemma shape_broadcast_column (n d : nat) :
  Shape.shape_broadcast [n; d] [n; 1] = Ok [n; d].
Proof.
  unfold Shape.shape_broadcast. simpl.
  rewrite dim_broadcast_1_r. simpl.
  unfold Shape.dim_broadcast. now rewrite Nat.eqb_refl.
Qed.

(** [(n, d)] against [(d,)]: a vector broadcast along the columns. *)
Lemma shape_broadcast_vector (n d : nat) :
  Shape.shape_broadcast [n; d] [d] = Ok [n; d].
Proof.
  unfold Shape.shape_broadcast. simpl.
  unfold Shape.dim_broadcast. now rewrite Nat.eqb_refl.
Qed.

Lemma broadcast_index_column (n d p : nat) :
  p < n * d ->
  Shape.index_to_position [n; 1]
    (Shape.broadcast_index (Shape.to_index [n; d] p) [n; 1]) = p / d.
Proof.
  intros Hp.
  assert (Hd : d <> 0) by nia.
  assert (Hq : p / d < n) by (apply Nat.Div0.div_lt_upper_bound; lia).
  unfold Shape.broadcast_index.
  cbn [Shape.to_index Shape.prod length Nat.sub skipn combine map fst snd
       Shape.index_to_position].
  rewrite !Nat.mul_1_r, Nat.ltb_irrefl.
  destruct (1 <? n) eqn:E.
  - rewrite Nat.mod_small by assumption. lia.
  - apply Nat.ltb_ge in E. lia.
Qed.

Lemma broadcast_index_vector (n d p : nat) :
  p < n * d ->
  Shape.index_to_position [d]
    (Shape.broadcast_index (Shape.to_index [n; d] p) [d]) = p mod d.
Proof.
  intros Hp.
  assert (Hd : d <> 0) by nia.
  unfold Shape.broadcast_index.
  cbn [Shape.to_index Shape.prod length Nat.sub skipn combine map fst snd
       Shape.index_to_position].
  rewrite !Nat.mul_1_r, Nat.div_1_r.
  destruct (1 <? d) eqn:E.
  - lia.
  - apply Nat.ltb_ge in E. assert (d = 1) by lia. subst d.
    now rewrite Nat.mod_1_r.
Qed.

Lemma div_mod_row (d i j : nat) : j < d -> (i * d + j) / d = i /\ (i * d + j) mod d = j.
Proof.
  intros Hj. split.
  - rewrite Nat.add_comm, Nat.div_add by lia. rewrite Nat.div_small by lia. lia.
  - rewrite Nat.add_comm, Nat.Div0.mod_add. now apply Nat.mod_small.
Qed.

(** ** The tensor operators at the shapes the layers use *)

Lemma prod_2 (n d : nat) : Shape.prod [n; d] = n * d.
Proof. simpl. lia. Qed.

Lemma prod_3 (a b c : nat) : Shape.prod [a; b; c] = a * b * c.
Proof. simpl. lia. Qed.

Lemma zip_same (f : R -> R -> R) (a b : Tensor) (s : list nat) :
  shape a = s -> shape b = s ->
  TensorOps.zip f a b
  = Ok (mkTensor s (tabulate (Shape.prod s) (fun p => f (at_pos a p) (at_pos b p)))).
Proof.
  intros Ha Hb. unfold TensorOps.zip, get.
  rewrite Ha, Hb, shape_broadcast_same. cbn [rbind].
  do 2 f_equal. apply tabulate_ext. intros p Hp. cbv zeta.
  now rewrite broadcast_index_same.
Qed.

Lemma zip_column (f : R -> R -> R) (a b : Tensor) (n d : nat) :
  shape a = [n; d] -> shape b = [n; 1] ->
  TensorOps.zip f a b
  = Ok (mkTensor [n; d]
          (tabulate (n * d) (fun p => f (at_pos a p) (at_pos b (p / d))))).
Proof.
  intros Ha Hb. unfold TensorOps.zip, get.
  rewrite Ha, Hb, shape_broadcast_column. cbn [rbind].
  rewrite prod_2. do 2 f_equal. apply tabulate_ext. intros p Hp. cbv zeta.
  rewrite broadcast_index_same by now rewrite prod_2.
  now rewrite broadcast_index_column.
Qed.

Lemma zip_vector (f : R -> R -> R) (a b : Tensor) (n d : nat) :
  shape a = [n; d] -> shape b = [d] ->
  TensorOps.zip f a b
  = Ok (mkTensor [n; d]
          (tabulate (n * d) (fun p => f (at_pos a p) (at_pos b (p mod d))))).
Proof.
  intros Ha Hb. unfold TensorOps.zip, get.
  rewrite Ha, Hb, shape_broadcast_vector. cbn [rbind].
  rewrite prod_2. do 2 f_equal. apply tabulate_ext. intros p Hp. cbv zeta.
  rewrite broadcast_index_same by now rewrite prod_2.
  now rewrite broadcast_index_vector.
Qed.

Lemma sum_rows (a : Tensor) (n d : nat) :
  shape a = [n; d] ->
  TensorOps.sum a 1
  = Ok (mkTensor [n; 1]
          (tabulate n (fun i => rsum d (fun k => at_pos a (i * d + k))))).
Proof.
  intros Ha. unfold TensorOps.sum, get. rewrite Ha.
  cbn [length Nat.ltb Nat.leb nth Shape.set_dim].
  rewrite prod_2, Nat.mul_1_r. do 2 f_equal.
  apply tabulate_ext. intros p Hp. cbv zeta.
  apply rsum_ext. intros k Hk.
  cbn [Shape.to_index Shape.prod Shape.set_dim Shape.index_to_position].
  rewrite !Nat.mul_1_r, Nat.div_1_r, Nat.mod_small by assumption.
  f_equal. lia.
Qed.

Lemma mean_rows (a : Tensor) (n d : nat) :
  shape a = [n; d] ->
  TensorOps.mean a 1
  = Ok (mkTensor [n; 1]
          (tabulate n (fun i =>
             (rsum d (fun k => at_pos a (i * d + k)) / INR d)%R))).
Proof.
  intros Ha. unfold TensorOps.mean. rewrite (sum_rows a Ha). cbn [rbind].
  unfold TensorOps.truediv_scalar, TensorOps.map_scalar. cbn [shape data].
  rewrite Ha. cbn [nth]. now rewrite map_tabulate.
Qed.

Lemma view_same_size (a : Tensor) (s : list nat) :
  Shape.prod s = length (data a) ->
  TensorOps.view a s = Ok (mkTensor s (data a)).
Proof. intros H. unfold TensorOps.view. now rewrite H, Nat.eqb_refl. Qed.

Lemma matmul_2d (a b : Tensor) (n k m : nat) :
  shape a = [n; k] -> shape b = [k; m] ->
  TensorOps.matmul a b
  = Ok (mkTensor [n; m]
          (tabulate (n * m) (fun p => dot_row_col a b k m (p / m) (p mod m)))).
Proof.
  intros Ha Hb. unfold TensorOps.matmul. rewrite Ha, Hb, Nat.eqb_refl.
  reflexivity.
Qed.

Lemma at_pos_mk (s : list nat) (n : nat) (f : nat -> R) (p : nat) :
  p < n -> at_pos (mkTensor s (tabulate n f)) p = f p.
Proof. intros Hp. unfold at_pos. cbn [data]. now apply nth_tabulate. Qed.

(** ** Running a method step by step *)

Lemma read_only_ret {S A : Type} (a : A) : read_only (@ret S A a).
Proof. intros s. reflexivity. Qed.

Lemma read_only_lift {S A : Type} (r : result A) : read_only (@lift S A r).
Proof. intros s. reflexivity. Qed.

Lemma read_only_reads {S A : Type} (f : S -> A) : read_only (reads f).
Proof. intros s. reflexivity. Qed.

Lemma read_only_attempt {S A : Type} (f : S -> result A) : read_only (attempt f).
Proof. intros s. reflexivity. Qed.

Lemma read_only_bind {S A B : Type} (c : Py S A) (k : A -> Py S B) :
  read_only c -> (forall a, read_only (k a)) -> read_only (bind c k).
Proof.
  intros Hc Hk s. unfold state_after, bind.
  specialize (Hc s). unfold state_after in Hc.
  destruct (c s) as [[a|e] s']; cbn [snd] in *; subst s'.
  - apply Hk.
  - reflexivity.
Qed.

Lemma read_only_keeps_self {M A : Type} (c : Py (World M) A) :
  read_only c -> keeps_self c.
Proof. intros H w. now rewrite H. Qed.

Lemma keeps_self_with_random {M A : Type} (c : Py RandomState A) :
  keeps_self (@with_random M A c).
Proof.
  intros w. unfold state_after, with_random.
  now destruct (c (np_random w)).
Qed.

Lemma keeps_self_bind {M A B : Type} (c : Py (World M) A) (k : A -> Py (World M) B) :
  keeps_self c -> (forall a, keeps_self (k a)) -> keeps_self (bind c k).
Proof.
  intros Hc Hk w. unfold state_after, bind.
  specialize (Hc w). unfold state_after in Hc.
  destruct (c w) as [[a|e] w']; cbn [snd] in *.
  - rewrite <- Hc. apply Hk.
  - assumption.
Qed.

Create HintDb frame.

#[local] Hint Resolve read_only_ret read_only_lift read_only_reads
  read_only_attempt read_only_keeps_self keeps_self_with_random : frame.

Ltac frame :=
  repeat first
    [ apply read_only_bind; [auto with frame | intros ?]
    | apply keeps_self_bind; [auto with frame | intros ?]
    | match goal with
      | |- context [match ?p with pair _ _ => _ end] => destruct p
      | |- context [if ?b then _ else _] => destruct b
      end
    | solve [auto with frame] ].

Lemma Embedding_forward_read_only (x : Tensor) : read_only (Embedding.forward x).
Proof. unfold Embedding.forward. frame. Qed.

Lemma Linear_forward_read_only (x : Tensor) : read_only (Linear.forward x).
Proof. unfold Linear.forward. frame. Qed.

Lemma LayerNorm1d_forward_read_only (x : Tensor) :
  read_only (LayerNorm1d.forward x).
Proof. unfold LayerNorm1d.forward. frame. Qed.

Lemma Dropout_forward_keeps_self (x : Tensor) : keeps_self (Dropout.forward x).
Proof. unfold Dropout.forward. frame. Qed.

(** ** Constructors *)

Lemma tabulate_has_shape (s : list nat) (f : nat -> R) :
  has_shape (mkTensor s (tabulate (Shape.prod s) f)) s.
Proof.
  split; [reflexivity|]. unfold Tensor_wf, size. cbn [data shape].
  apply tabulate_length.
Qed.

Lemma Forall_tabulate {A : Type} (P : A -> Prop) (n : nat) (f : nat -> A) :
  (forall p, p < n -> P (f p)) -> Forall P (tabulate n f).
Proof.
  intros H. unfold tabulate. apply Forall_forall. intros a Ha.
  apply in_map_iff in Ha as [p [<- Hp]]. apply in_seq in Hp. apply H. lia.
Qed.

Lemma float_div_nonzero (a b : R) : b <> 0%R -> float_div a b = Ok (a / b)%R.
Proof.
  intros Hb. unfold float_div. now destruct (Req_dec_T b 0).
Qed.

Lemma float_div_zero (a : R) : float_div a 0 = Raise ZeroDivisionError.
Proof.
  unfold float_div. now destruct (Req_dec_T 0 0).
Qed.

Lemma Embedding_init_wf (n d : nat) (be : TensorBackend) (g : RandomState) :
  exists m g', Embedding.__init__ n d be g = (Ok m, g')
               /\ Embedding.num_embeddings m = n
               /\ Embedding.embedding_dim m = d
               /\ Embedding_wf m.
Proof.
  unfold Embedding.__init__, bind, np.random.randn, ret.
  do 2 eexists. split; [reflexivity|].
  repeat split. apply tabulate_length.
Qed.

Lemma Linear_init_wf (i o : nat) (b : bool) (be : TensorBackend) (g : RandomState) :
  0 < i ->
  exists m g', Linear.__init__ i o b be g = (Ok m, g')
               /\ Linear.in_size m = i
               /\ Linear.out_size m = o
               /\ Linear.use_bias m = b
               /\ Linear_wf m.
Proof.
  intros Hi.
  assert (Hs : sqrt (INR i) <> 0%R).
  { apply Rgt_not_eq, sqrt_lt_R0, lt_0_INR, Hi. }
  unfold Linear.__init__, bind, lift.
  rewrite (float_div_nonzero _ Hs).
  unfold np.random.uniform, ret, np.astype_float32, tensor_from_numpy.
  destruct b; cbn [np_shape np_data].
  - do 2 eexists. split; [reflexivity|].
    repeat split; cbn [Linear.weights Linear.bias Linear.in_size
                       Linear.out_size Linear.use_bias value];
      try apply tabulate_has_shape; reflexivity.
  - do 2 eexists. split; [reflexivity|].
    repeat split; cbn [Linear.weights Linear.bias Linear.in_size
                       Linear.out_size Linear.use_bias value];
      try apply tabulate_has_shape; reflexivity.
Qed.

Lemma LayerNorm1d_init_wf (d : nat) (eps : R) (be : TensorBackend) :
  LayerNorm1d_wf (LayerNorm1d.__init__ d eps be).
Proof.
  split; apply tabulate_has_shape.
Qed.

(** * The claims *)

(** The guard of [Dropout.forward]. *)
Lemma Dropout_forward_inactive (m : Dropout.t) (x : Tensor) (g : RandomState) :
  Dropout.training m = false \/ Dropout.p_dropout m = 0%R ->
  Dropout.forward x (mkWorld m g) = (Ok x, mkWorld m g).
Proof.
  intros H. unfold Dropout.forward, bind, reads, ret. cbn [self].
  destruct H as [H | H].
  - rewrite H. reflexivity.
  - rewrite H. unfold Req_bool.
    destruct (Req_dec_T 0 0) as [_ | Hne]; [|contradiction].
    now rewrite orb_true_r.
Qed.

(** C5: outside of active training, that is when the module is not in
    training mode or [p_dropout] is 0, [Dropout.forward] returns its input
    tensor unchanged (and touches neither the module nor the generator). *)
Theorem Dropout_forward_identity (m : Dropout.t) (x : Tensor) (g : RandomState) :
  Dropout.training m = false \/ Dropout.p_dropout m = 0%R ->
  Dropout.forward x (mkWorld m g) = (Ok x, mkWorld m g).
Proof. apply Dropout_forward_inactive. Qed.

Lemma Dropout_forward_identity_witness :
  Dropout.forward Sample.x12 (mkWorld Sample.dropout_eval Sample.tape)
  = (Ok Sample.x12, mkWorld Sample.dropout_eval Sample.tape).
Proof.
  apply Dropout_forward_identity. left. reflexivity.
Defined.

(** C7: every [forward] is read-only on the module.  [Embedding], [Linear]
    and [LayerNorm1d] leave the whole state (module object and generator)
    as it was; [Dropout] leaves the module object, with its [p_dropout]
    and training flag, as it was. *)
Theorem forward_leaves_module_unchanged :
  (forall x w, state_after (Embedding.forward x) w = w) /\
  (forall x w, state_after (Linear.forward x) w = w) /\
  (forall x w, state_after (LayerNorm1d.forward x) w = w) /\
  (forall x w, self (state_after (Dropout.forward x) w) = self w).
Proof.
  repeat split; intros x w.
  - apply Embedding_forward_read_only.
  - apply Linear_forward_read_only.
  - apply LayerNorm1d_forward_read_only.
  - apply Dropout_forward_keeps_self.
Qed.

(** C6 (as the code has it): each constructor builds its parameters.
    [Embedding.__init__] makes weights of shape (num_embeddings,
    embedding_dim); [Linear.__init__], for [in_size] at least 1, makes
    weights of shape (in_size, out_size) and a bias of shape (out_size,)
    exactly when [bias] is true, and no bias otherwise;
    [LayerNorm1d.__init__] makes weights of shape (dim,) that are all 1
    and a bias of shape (dim,) that is all 0. *)
Theorem constructors_build_parameters
    (n d i o dim : nat) (b : bool) (eps : R) (be : TensorBackend)
    (g : RandomState) :
  0 < i ->
  (exists m g', Embedding.__init__ n d be g = (Ok m, g')
     /\ has_shape (value (Embedding.weights m)) [n; d]) /\
  (exists m g', Linear.__init__ i o b be g = (Ok m, g')
     /\ has_shape (value (Linear.weights m)) [i; o]
     /\ (b = true -> exists bp, Linear.bias m = Some bp
                                /\ has_shape (value bp) [o])
     /\ (b = false -> Linear.bias m = None)) /\
  (let m := LayerNorm1d.__init__ dim eps be in
   has_shape (value (LayerNorm1d.weights m)) [dim]
   /\ Forall (fun v => v = 1%R) (data (value (LayerNorm1d.weights m)))
   /\ has_shape (value (LayerNorm1d.bias m)) [dim]
   /\ Forall (fun v => v = 0%R) (data (value (LayerNorm1d.bias m)))).
Proof.
  intros Hi. split; [|split].
  - destruct (Embedding_init_wf n d be g) as [m [g' [E [Hn [Hd W]]]]].
    exists m, g'. split; [exact E|].
    unfold Embedding_wf in W. now rewrite Hn, Hd in W.
  - destruct (Linear_init_wf o b be g Hi) as [m [g' [E [Hin [Ho [Hb [W1 W2]]]]]]].
    exists m, g'. split; [exact E|]. rewrite Hin, Ho in W1. split; [exact W1|].
    rewrite Hb in W2. split.
    + intros ->. destruct (Linear.bias m) as [bp|]; [|discriminate].
      exists bp. split; [reflexivity|]. rewrite <- Ho. apply W2.
    + intros ->. destruct (Linear.bias m) as [bp|]; [|reflexivity].
      destruct W2 as [W2 _]. discriminate.
  - cbv zeta. repeat split; try apply tabulate_length;
      apply Forall_tabulate; reflexivity.
Qed.

Lemma constructors_build_parameters_witness :
  (exists m g', Embedding.__init__ 2 3 Sample.cpu Sample.tape = (Ok m, g')
     /\ has_shape (value (Embedding.weights m)) [2; 3]) /\
  (exists m g', Linear.__init__ 2 3 true Sample.cpu Sample.tape = (Ok m, g')
     /\ has_shape (value (Linear.weights m)) [2; 3]
     /\ (true = true -> exists bp, Linear.bias m = Some bp
                                   /\ has_shape (value bp) [3])
     /\ (true = false -> Linear.bias m = None)) /\
  (let m := LayerNorm1d.__init__ 2 1%R Sample.cpu in
   has_shape (value (LayerNorm1d.weights m)) [2]
   /\ Forall (fun v => v = 1%R) (data (value (LayerNorm1d.weights m)))
   /\ has_shape (value (LayerNorm1d.bias m)) [2]
   /\ Forall (fun v => v = 0%R) (data (value (LayerNorm1d.bias m)))).
Proof.
  apply (@constructors_build_parameters 2 3 2 3 2 true 1%R Sample.cpu Sample.tape).
  lia.
Defined.

(** C6 as stated fails for [in_size = 0]: [1.0 / math.sqrt(0)] raises
    before any parameter is built. *)
Lemma Linear_init_zero_in_size :
  returned (Linear.__init__ 0 3 true Sample.cpu) Sample.tape
  = Raise ZeroDivisionError.
Proof.
  unfold returned, Linear.__init__, bind, lift. cbn [INR].
  rewrite sqrt_0, float_div_zero. reflexivity.
Qed.

Lemma get_2d (t : Tensor) (n d i j : nat) :
  shape t = [n; d] -> get t [i; j] = at_pos t (i * d + j).
Proof.
  intros H. unfold get. rewrite H.
  cbn [Shape.index_to_position Shape.prod]. f_equal. lia.
Qed.

Lemma get_1d (t : Tensor) (d j : nat) :
  shape t = [d] -> get t [j] = at_pos t j.
Proof.
  intros H. unfold get. rewrite H.
  cbn [Shape.index_to_position Shape.prod]. f_equal. lia.
Qed.

Lemma get_3d (t : Tensor) (a b c i j k : nat) :
  shape t = [a; b; c] -> get t [i; j; k] = at_pos t ((i * b + j) * c + k).
Proof.
  intros H. unfold get. rewrite H.
  cbn [Shape.index_to_position Shape.prod]. f_equal. lia.
Qed.

Lemma row_position (n d i j : nat) : i < n -> j < d -> i * d + j < n * d.
Proof. nia. Qed.

(** [Linear.forward] in closed form. *)
Lemma Linear_forward_closed (m : Linear.t) (x : Tensor) (n : nat) (g : RandomState) :
  Linear_wf m ->
  shape x = [n; Linear.in_size m] ->
  Linear.forward x (mkWorld m g)
  = (Ok (mkTensor [n; Linear.out_size m]
           (tabulate (n * Linear.out_size m) (fun p =>
              let o := Linear.out_size m in
              let xw := dot_row_col x (value (Linear.weights m))
                                    (Linear.in_size m) o (p / o) (p mod o) in
              match Linear.bias m with
              | Some b => (xw + at_pos (value b) (p mod o))%R
              | None => xw
              end))),
     mkWorld m g).
Proof.
  intros [[HW _] Hb] Hx.
  unfold Linear.forward, bind, lift, reads, attempt, ret.
  rewrite Hx. cbn [unpack2 self].
  rewrite (matmul_2d x (value (Linear.weights m)) Hx HW).
  unfold Linear.bias_value.
  destruct (Linear.bias m) as [b|] eqn:Eb.
  - destruct Hb as [Hu [Hbs _]]. rewrite Hu. cbn [self]. rewrite Eb.
    unfold TensorOps.add.
    rewrite (@zip_vector Rplus _ (value b) n (Linear.out_size m)) by
      (try reflexivity; assumption).
    do 3 f_equal. apply tabulate_ext. intros p Hp. cbv zeta.
    now rewrite at_pos_mk.
  - rewrite Hb. reflexivity.
Qed.

(** C3: [Linear.forward] is the affine map.  For an input of shape (n,
    in_size) the output has shape (n, out_size); with a bias its entry
    (i, j) is row i of x times column j of the weights plus bias j, that
    is x @ weights + bias, and without a bias the output is exactly
    x @ weights. *)
Theorem Linear_forward_affine (m : Linear.t) (x : Tensor) (n : nat) (g : RandomState) :
  Linear_wf m ->
  shape x = [n; Linear.in_size m] ->
  exists out,
    Linear.forward x (mkWorld m g) = (Ok out, mkWorld m g)
    /\ has_shape out [n; Linear.out_size m]
    /\ (Linear.use_bias m = true ->
        exists b xw,
          Linear.bias m = Some b
          /\ TensorOps.matmul x (value (Linear.weights m)) = Ok xw
          /\ TensorOps.add xw (value b) = Ok out
          /\ forall i j, i < n -> j < Linear.out_size m ->
               get out [i; j]
               = (dot_row_col x (value (Linear.weights m))
                              (Linear.in_size m) (Linear.out_size m) i j
                  + get (value b) [j])%R)
    /\ (Linear.use_bias m = false ->
        TensorOps.matmul x (value (Linear.weights m)) = Ok out
        /\ forall i j, i < n -> j < Linear.out_size m ->
             get out [i; j]
             = dot_row_col x (value (Linear.weights m))
                           (Linear.in_size m) (Linear.out_size m) i j).
Proof.
  intros Hwf Hx. eexists. split; [apply (@Linear_forward_closed m x n g Hwf Hx)|].
  destruct Hwf as [[HW HWwf] Hb].
  pose proof (matmul_2d x (value (Linear.weights m)) Hx HW) as Hmm.
  split; [|split].
  - split; [reflexivity|]. unfold Tensor_wf, size. cbn [data shape].
    rewrite tabulate_length, prod_2. reflexivity.
  - intros Hu. destruct (Linear.bias m) as [b|] eqn:Eb; [|congruence].
    destruct Hb as [_ [Hbs _]].
    exists b. eexists. split; [reflexivity|]. split; [exact Hmm|]. split.
    + unfold TensorOps.add.
      rewrite (@zip_vector Rplus _ (value b) n (Linear.out_size m)) by
        (try reflexivity; assumption).
      do 2 f_equal. apply tabulate_ext. intros p Hp.
      now rewrite at_pos_mk.
    + intros i j Hi Hj.
      rewrite (@get_2d _ n (Linear.out_size m)) by reflexivity.
      rewrite at_pos_mk by now apply row_position.
      cbv zeta. destruct (div_mod_row i Hj) as [-> ->].
      now rewrite (@get_1d _ _ j Hbs).
  - intros Hu. destruct (Linear.bias m) as [b|] eqn:Eb.
    + destruct Hb as [Hb _]. congruence.
    + split.
      * rewrite Hmm. reflexivity.
      * intros i j Hi Hj.
        rewrite (@get_2d _ n (Linear.out_size m)) by reflexivity.
        rewrite at_pos_mk by now apply row_position.
        cbv zeta. now destruct (div_mod_row i Hj) as [-> ->].
Qed.

Lemma Linear_forward_affine_witness :
  (Linear_wf Sample.linear /\ shape Sample.x12 = [1; Linear.in_size Sample.linear]) /\
  exists out,
    Linear.forward Sample.x12 (mkWorld Sample.linear Sample.tape)
    = (Ok out, mkWorld Sample.linear Sample.tape)
    /\ has_shape out [1; 2].
Proof.
  assert (Hwf : Linear_wf Sample.linear).
  { repeat split. }
  assert (Hx : shape Sample.x12 = [1; Linear.in_size Sample.linear]) by reflexivity.
  split; [split; assumption|].
  destruct (@Linear_forward_affine Sample.linear Sample.x12 1 Sample.tape Hwf Hx)
    as [out [Hrun [Hshape _]]].
  exists out. split; assumption.
Defined.

(** ** Class indices and [one_hot] *)

Lemma astype_int_INR (k : nat) : TensorOps.astype_int (INR k) = Z.of_nat k.
Proof.
  unfold TensorOps.astype_int.
  destruct (Rle_dec 0 (INR k)) as [_ | H].
  - apply Int_part_INR.
  - exfalso. apply H, pos_INR.
Qed.

Lemma class_index_INR (n k : nat) :
  k < n -> TensorOps.class_index n (INR k) = Ok k.
Proof.
  intros Hk. unfold TensorOps.class_index. rewrite astype_int_INR.
  replace ((0 <=? Z.of_nat k)%Z) with true by (symmetry; apply Z.leb_le; lia).
  replace ((Z.of_nat k <? Z.of_nat n)%Z) with true by (symmetry; apply Z.ltb_lt; lia).
  cbn [andb]. now rewrite Nat2Z.id.
Qed.

Lemma mapM_class_index (n : nat) (l : list R) :
  Forall (fun v => exists k, k < n /\ v = INR k) l ->
  TensorOps.mapM (TensorOps.class_index n) l = Ok (classes_of l).
Proof.
  induction 1 as [|v l [k [Hk ->]] _ IH].
  - reflexivity.
  - cbn [TensorOps.mapM classes_of map]. rewrite (class_index_INR Hk).
    cbn [rbind]. unfold classes_of in IH. rewrite IH. cbn [rbind].
    now rewrite astype_int_INR, Nat2Z.id.
Qed.

Lemma classes_of_length (l : list R) : length (classes_of l) = length l.
Proof. unfold classes_of. apply length_map. Qed.

Lemma nth_classes_of (l : list R) (p k : nat) :
  p < length l -> nth p l 0%R = INR k -> nth p (classes_of l) 0 = k.
Proof.
  intros Hp Hv. unfold classes_of.
  rewrite (nth_indep _ 0 (Z.to_nat (TensorOps.astype_int 0)))
    by now rewrite length_map.
  rewrite (map_nth (fun v => Z.to_nat (TensorOps.astype_int v))).
  now rewrite Hv, astype_int_INR, Nat2Z.id.
Qed.

Lemma class_indices_at (n : nat) (x : Tensor) (p : nat) :
  class_indices n x -> p < length (data x) ->
  exists k, k < n /\ at_pos x p = INR k.
Proof.
  intros H Hp. unfold class_indices in H. rewrite Forall_forall in H.
  apply H. unfold at_pos. now apply nth_In.
Qed.

(** [Embedding.forward] in closed form: the one-hot rows times the
    weights, reshaped. *)
Lemma Embedding_forward_closed
    (m : Embedding.t) (x : Tensor) (bs seq_len : nat) (g : RandomState) :
  Embedding_wf m ->
  has_shape x [bs; seq_len] ->
  class_indices (Embedding.num_embeddings m) x ->
  let n := Embedding.num_embeddings m in
  let d := Embedding.embedding_dim m in
  let x_flat :=
    mkTensor [bs * seq_len; n]
      (tabulate (length (classes_of (data x)) * n) (fun p =>
         if nth (p / n) (classes_of (data x)) 0 =? p mod n then 1%R else 0%R)) in
  Embedding.forward x (mkWorld m g)
  = (Ok (mkTensor [bs; seq_len; d]
           (tabulate (bs * seq_len * d) (fun p =>
              dot_row_col x_flat (value (Embedding.weights m)) n d
                          (p / d) (p mod d)))),
     mkWorld m g).
Proof.
  intros [HW _] [Hx Hxwf] Hcls n d x_flat.
  unfold Tensor_wf, size in Hxwf. rewrite Hx, prod_2 in Hxwf.
  unfold Embedding.forward, bind, lift, reads.
  rewrite Hx. cbn [unpack2 self].
  unfold TensorOps.one_hot. rewrite (mapM_class_index Hcls). cbn [rbind].
  rewrite view_same_size
    by (cbn [data]; rewrite tabulate_length, classes_of_length, Hxwf, prod_2;
        reflexivity).
  cbn [data].
  rewrite (@matmul_2d _ (value (Embedding.weights m)) (bs * seq_len)
             (Embedding.num_embeddings m) (Embedding.embedding_dim m))
    by (try reflexivity; assumption).
  rewrite view_same_size
    by (cbn [data]; rewrite tabulate_length, prod_3; reflexivity).
  reflexivity.
Qed.

(** C1: [Embedding.forward] is the embedding lookup.  For an input of
    shape (batch_size, seq_len) whose entries are integers in
    [0, num_embeddings), the output has shape (batch_size, seq_len,
    embedding_dim) and its slice at (b, s) is row [x[b, s]] of the
    weights. *)
Theorem Embedding_forward_lookup
    (m : Embedding.t) (x : Tensor) (bs seq_len : nat) (g : RandomState) :
  Embedding_wf m ->
  has_shape x [bs; seq_len] ->
  class_indices (Embedding.num_embeddings m) x ->
  exists out,
    Embedding.forward x (mkWorld m g) = (Ok out, mkWorld m g)
    /\ has_shape out [bs; seq_len; Embedding.embedding_dim m]
    /\ forall b s k j,
         b < bs -> s < seq_len -> j < Embedding.embedding_dim m ->
         get x [b; s] = INR k ->
         get out [b; s; j] = get (value (Embedding.weights m)) [k; j].
Proof.
  intros Hwf Hxs Hcls. eexists.
  split; [apply (@Embedding_forward_closed m x bs seq_len g Hwf Hxs Hcls)|].
  destruct Hwf as [HW _]. destruct Hxs as [Hx Hxwf].
  unfold Tensor_wf, size in Hxwf. rewrite Hx, prod_2 in Hxwf.
  split.
  - split; [reflexivity|]. unfold Tensor_wf, size. cbn [data shape].
    now rewrite tabulate_length, prod_3.
  - intros b s k j Hb Hs Hj Hk.
    set (n := Embedding.num_embeddings m) in *.
    set (d := Embedding.embedding_dim m) in *.
    assert (Hq : b * seq_len + s < bs * seq_len) by now apply row_position.
    rewrite (@get_2d _ bs seq_len) in Hk by assumption.
    destruct (@class_indices_at n x (b * seq_len + s) Hcls) as [k' [Hk' Hv]];
      [lia|].
    assert (k' = k) by (apply INR_eq; congruence). subst k'.
    rewrite (@get_3d _ bs seq_len d) by reflexivity.
    rewrite at_pos_mk by (apply row_position; assumption).
    destruct (div_mod_row (b * seq_len + s) Hj) as [-> ->].
    unfold dot_row_col.
    rewrite (rsum_ext _ (fun l => (if k =? l then 1 else 0)
                                  * at_pos (value (Embedding.weights m)) (l * d + j))%R).
    + rewrite rsum_pick by assumption.
      now rewrite (@get_2d _ n d).
    + intros l Hl. f_equal.
      rewrite at_pos_mk
        by (rewrite classes_of_length, Hxwf; apply row_position; assumption).
      destruct (div_mod_row (b * seq_len + s) Hl) as [-> ->].
      rewrite (@nth_classes_of (data x) (b * seq_len + s) k) by (try lia; exact Hk).
      reflexivity.
Qed.

Lemma Embedding_forward_lookup_witness :
  (Embedding_wf Sample.embedding
   /\ has_shape Sample.tokens [1; 1]
   /\ class_indices (Embedding.num_embeddings Sample.embedding) Sample.tokens) /\
  exists out,
    Embedding.forward Sample.tokens (mkWorld Sample.embedding Sample.tape)
    = (Ok out, mkWorld Sample.embedding Sample.tape)
    /\ has_shape out [1; 1; 2].
Proof.
  assert (Hwf : Embedding_wf Sample.embedding) by (repeat split).
  assert (Hx : has_shape Sample.tokens [1; 1]) by (repeat split).
  assert (Hc : class_indices (Embedding.num_embeddings Sample.embedding)
                             Sample.tokens).
  { constructor; [|constructor]. exists 1. split; [cbn; lia | reflexivity]. }
  split; [repeat split; assumption|].
  destruct (@Embedding_forward_lookup Sample.embedding Sample.tokens 1 1
              Sample.tape Hwf Hx Hc) as [out [Hrun [Hshape _]]].
  exists out. split; assumption.
Defined.

(** ** Layer normalisation *)

Lemma mk_tabulate_ext (s : list nat) (n : nat) (f g : nat -> R) :
  (forall p, p < n -> f p = g p) ->
  mkTensor s (tabulate n f) = mkTensor s (tabulate n g).
Proof. intros H. now rewrite (tabulate_ext f g H). Qed.

Lemma pow_half_sqrt (v : R) : TensorOps.pow_real v 0.5 = sqrt v.
Proof.
  unfold TensorOps.pow_real. destruct (Rlt_dec 0 v) as [Hv | Hv].
  - replace 0.5%R with (/ 2)%R by lra. now apply Rpower_sqrt.
  - symmetry. apply sqrt_neg_0. lra.
Qed.

Lemma div_lt_rows (n d p : nat) : p < n * d -> p / d < n.
Proof. intros Hp. apply Nat.Div0.div_lt_upper_bound. lia. Qed.

(** One entry of the output of [LayerNorm1d.forward]. *)
Lemma LayerNorm1d_forward_closed
    (m : LayerNorm1d.t) (x : Tensor) (n : nat) (g : RandomState) :
  LayerNorm1d_wf m ->
  shape x = [n; LayerNorm1d.dim m] ->
  let d := LayerNorm1d.dim m in
  LayerNorm1d.forward x (mkWorld m g)
  = (Ok (mkTensor [n; d]
           (tabulate (n * d) (fun p =>
              ((at_pos x p - row_mean x d (p / d))
               / sqrt (row_var x d (p / d) + LayerNorm1d.eps m)
               * at_pos (value (LayerNorm1d.weights m)) (p mod d)
               + at_pos (value (LayerNorm1d.bias m)) (p mod d))%R))),
     mkWorld m g).
Proof.
  intros [[HW _] [HB _]] Hx d. fold d in Hx, HW, HB.
  unfold LayerNorm1d.forward, bind, lift, reads.
  rewrite Hx. cbn [unpack2 self].
  (* mean = x.mean(dim=1).view(batch, 1) *)
  rewrite (mean_rows x Hx).
  rewrite view_same_size
    by (cbn [data Shape.prod]; rewrite tabulate_length; lia).
  cbn [data].
  (* diff = x - mean *)
  unfold TensorOps.sub.
  rewrite (@zip_column Rminus x _ n d) by (reflexivity || assumption).
  rewrite (@mk_tabulate_ext [n; d] (n * d) _
             (fun p => (at_pos x p - row_mean x d (p / d))%R))
    by (intros p Hp; rewrite at_pos_mk by (now apply div_lt_rows);
        reflexivity).
  (* var = (diff * diff).mean(dim=1).view(batch, 1) *)
  unfold TensorOps.mul at 1.
  rewrite (@zip_same Rmult _ _ [n; d]) by reflexivity.
  rewrite prod_2.
  rewrite (@mean_rows _ n d) by reflexivity.
  rewrite (@mk_tabulate_ext [n; 1] n _ (fun i => row_var x d i)).
  2:{ intros i Hi. unfold row_var. f_equal. apply rsum_ext. intros k Hk.
      rewrite !at_pos_mk by (now apply row_position).
      now destruct (div_mod_row i Hk) as [-> _]. }
  rewrite view_same_size
    by (cbn [data Shape.prod]; rewrite tabulate_length; lia).
  cbn [data].
  (* x_hat = diff / ((var + eps) ** 0.5) *)
  unfold TensorOps.pow_scalar, TensorOps.add_scalar, TensorOps.map_scalar.
  cbn [data shape]. rewrite !map_tabulate.
  unfold TensorOps.truediv.
  rewrite (@zip_column Rdiv _ _ n d) by reflexivity.
  rewrite (@mk_tabulate_ext [n; d] (n * d) _
             (fun p => ((at_pos x p - row_mean x d (p / d))
                        / sqrt (row_var x d (p / d) + LayerNorm1d.eps m))%R))
    by (intros p Hp;
        rewrite !at_pos_mk by (try apply div_lt_rows; assumption);
        now rewrite pow_half_sqrt).
  (* x_hat * weights + bias *)
  unfold TensorOps.mul, TensorOps.add.
  rewrite (@zip_vector Rmult _ (value (LayerNorm1d.weights m)) n d)
    by (reflexivity || assumption).
  rewrite (@zip_vector Rplus _ (value (LayerNorm1d.bias m)) n d)
    by (reflexivity || assumption).
  do 2 f_equal. apply mk_tabulate_ext. intros p Hp.
  now rewrite !at_pos_mk by assumption.
Qed.

Lemma row_tabulate (x : Tensor) (n d i : nat) :
  has_shape x [n; d] -> i < n ->
  row x i = tabulate d (fun j => at_pos x (i * d + j)).
Proof.
  intros [Hx Hwf] Hi. unfold Tensor_wf, size in Hwf.
  rewrite Hx, prod_2 in Hwf.
  unfold row. rewrite Hx. cbn [nth].
  replace (data x) with (tabulate (n * d) (fun p => at_pos x p))
    by (unfold at_pos; rewrite <- Hwf; apply tabulate_nth).
  now apply tabulate_window.
Qed.

Lemma list_mean_row (x : Tensor) (d i : nat) :
  list_mean (tabulate d (fun j => at_pos x (i * d + j))) = row_mean x d i.
Proof. unfold list_mean, row_mean, rsum. now rewrite tabulate_length. Qed.

Lemma list_var_row (x : Tensor) (d i : nat) :
  list_var (tabulate d (fun j => at_pos x (i * d + j))) = row_var x d i.
Proof.
  unfold list_var. rewrite list_mean_row, map_tabulate.
  unfold list_mean, row_var, rsum. now rewrite tabulate_length.
Qed.

(** C2: [LayerNorm1d.forward] is layer normalisation.  For an input of
    shape (batch_size, dim) the output has shape (batch_size, dim) and each
    of its rows is (row - mean(row)) / sqrt(var(row) + eps) * weights +
    bias, with the arithmetic mean and the biased variance of the row. *)
Theorem LayerNorm1d_forward_normalises
    (m : LayerNorm1d.t) (x : Tensor) (n : nat) (g : RandomState) :
  LayerNorm1d_wf m ->
  has_shape x [n; LayerNorm1d.dim m] ->
  exists out,
    LayerNorm1d.forward x (mkWorld m g) = (Ok out, mkWorld m g)
    /\ has_shape out [n; LayerNorm1d.dim m]
    /\ forall i, i < n ->
         row out i
         = layer_norm_row (LayerNorm1d.eps m)
                          (data (value (LayerNorm1d.weights m)))
                          (data (value (LayerNorm1d.bias m)))
                          (row x i).
Proof.
  intros Hwf Hxs. eexists.
  split; [apply (@LayerNorm1d_forward_closed m x n g Hwf (proj1 Hxs))|].
  split.
  - split; [reflexivity|]. unfold Tensor_wf, size. cbn [data shape].
    now rewrite tabulate_length, prod_2.
  - intros i Hi. set (d := LayerNorm1d.dim m) in *.
    rewrite (row_tabulate Hxs Hi).
    unfold row at 1. cbn [shape data nth].
    rewrite tabulate_window by assumption.
    unfold layer_norm_row.
    rewrite list_mean_row, list_var_row, tabulate_length.
    apply tabulate_ext. intros j Hj.
    destruct (div_mod_row i Hj) as [-> ->].
    now rewrite nth_tabulate.
Qed.

Lemma LayerNorm1d_forward_normalises_witness :
  (LayerNorm1d_wf Sample.layer_norm /\ has_shape Sample.x12 [1; 2]) /\
  exists out,
    LayerNorm1d.forward Sample.x12 (mkWorld Sample.layer_norm Sample.tape)
    = (Ok out, mkWorld Sample.layer_norm Sample.tape)
    /\ has_shape out [1; 2].
Proof.
  assert (Hwf : LayerNorm1d_wf Sample.layer_norm) by apply LayerNorm1d_init_wf.
  assert (Hx : has_shape Sample.x12 [1; LayerNorm1d.dim Sample.layer_norm])
    by (repeat split).
  split; [split; assumption|].
  destruct (@LayerNorm1d_forward_normalises Sample.layer_norm Sample.x12 1
              Sample.tape Hwf Hx) as [out [Hrun [Hshape _]]].
  exists out. split; assumption.
Defined.

(** ** Adding a constant to the input of layer normalisation *)

Lemma at_pos_add_scalar (x : Tensor) (c : R) (p : nat) :
  p < length (data x) ->
  at_pos (TensorOps.add_scalar x c) p = (at_pos x p + c)%R.
Proof.
  intros Hp. unfold at_pos, TensorOps.add_scalar, TensorOps.map_scalar.
  cbn [data].
  rewrite (nth_indep _ 0%R (0 + c)%R) by now rewrite length_map.
  apply (map_nth (fun v => (v + c)%R)).
Qed.

Lemma row_mean_shift (x : Tensor) (n d i : nat) (c : R) :
  has_shape x [n; d] -> i < n -> 0 < d ->
  row_mean (TensorOps.add_scalar x c) d i = (row_mean x d i + c)%R.
Proof.
  intros [Hx Hwf] Hi Hd. unfold Tensor_wf, size in Hwf.
  rewrite Hx, prod_2 in Hwf. unfold row_mean.
  rewrite (rsum_ext _ (fun k => at_pos x (i * d + k) + c)%R)
    by (intros k Hk; apply at_pos_add_scalar; rewrite Hwf;
        now apply row_position).
  rewrite rsum_plus, rsum_const.
  assert (INR d <> 0%R) by (apply not_0_INR; lia).
  field. assumption.
Qed.

Lemma row_var_shift (x : Tensor) (n d i : nat) (c : R) :
  has_shape x [n; d] -> i < n -> 0 < d ->
  row_var (TensorOps.add_scalar x c) d i = row_var x d i.
Proof.
  intros Hxs Hi Hd. unfold row_var.
  rewrite (row_mean_shift c Hxs Hi Hd).
  destruct Hxs as [Hx Hwf]. unfold Tensor_wf, size in Hwf.
  rewrite Hx, prod_2 in Hwf.
  f_equal. apply rsum_ext. intros k Hk.
  rewrite at_pos_add_scalar by (rewrite Hwf; now apply row_position).
  ring.
Qed.

(** C10: over exact arithmetic [LayerNorm1d.forward] is shift-invariant:
    adding a constant [c] to every element of an input of shape (bs, dim)
    does not change the output. *)
Theorem LayerNorm1d_forward_shift_invariant
    (m : LayerNorm1d.t) (x : Tensor) (n : nat) (c : R) (g : RandomState) :
  LayerNorm1d_wf m ->
  has_shape x [n; LayerNorm1d.dim m] ->
  LayerNorm1d.forward (TensorOps.add_scalar x c) (mkWorld m g)
  = LayerNorm1d.forward x (mkWorld m g).
Proof.
  intros Hwf Hxs.
  assert (Hxs' := Hxs). destruct Hxs' as [Hx Hlen].
  unfold Tensor_wf, size in Hlen. rewrite Hx, prod_2 in Hlen.
  rewrite (@LayerNorm1d_forward_closed m x n g Hwf Hx).
  rewrite (@LayerNorm1d_forward_closed m (TensorOps.add_scalar x c) n g Hwf Hx).
  do 2 f_equal. apply mk_tabulate_ext. intros p Hp.
  set (d := LayerNorm1d.dim m) in *.
  assert (Hd : 0 < d) by nia.
  assert (Hi : p / d < n) by now apply div_lt_rows.
  rewrite at_pos_add_scalar by lia.
  rewrite (row_mean_shift c Hxs Hi Hd), (row_var_shift c Hxs Hi Hd).
  f_equal. f_equal. f_equal. ring.
Qed.

Lemma LayerNorm1d_forward_shift_invariant_witness :
  (LayerNorm1d_wf Sample.layer_norm /\ has_shape Sample.x12 [1; 2]) /\
  LayerNorm1d.forward (TensorOps.add_scalar Sample.x12 5)
                      (mkWorld Sample.layer_norm Sample.tape)
  = LayerNorm1d.forward Sample.x12 (mkWorld Sample.layer_norm Sample.tape).
Proof.
  assert (Hwf : LayerNorm1d_wf Sample.layer_norm) by apply LayerNorm1d_init_wf.
  assert (Hx : has_shape Sample.x12 [1; LayerNorm1d.dim Sample.layer_norm])
    by (repeat split).
  split; [split; assumption|].
  apply (@LayerNorm1d_forward_shift_invariant Sample.layer_norm Sample.x12 1 5
           Sample.tape Hwf Hx).
Defined.

(** ** Dropout in training mode *)

Lemma rsum_1 (f : nat -> R) : rsum 1 f = f 0.
Proof. unfold rsum, tabulate, sum_list. cbn [seq map fold_right]. lra. Qed.

Lemma bernoulli_cases (p u : R) :
  np.random.bernoulli p u = 0%R \/ np.random.bernoulli p u = 1%R.
Proof.
  unfold np.random.bernoulli.
  destruct (Rle_dec p 0.5);
    [destruct (Rlt_dec (1 - p) u) | destruct (Rle_dec u p)]; auto.
Qed.

Lemma binomial_1 (p : R) (size : list nat) (g : RandomState) :
  (0 <= p <= 1)%R ->
  np.random.binomial 1 p size g
  = (Ok (mkArray size
           (tabulate (Shape.prod size) (fun i =>
              np.random.bernoulli p (uniform_draw g (consumed g + i))))),
     advance (Shape.prod size * 1) g).
Proof.
  intros [H0 H1]. unfold np.random.binomial.
  destruct (Rlt_dec p 0) as [H | _]; [lra|].
  destruct (Rlt_dec 1 p) as [H | _]; [lra|].
  do 3 f_equal. apply tabulate_ext. intros i Hi.
  rewrite rsum_1. do 2 f_equal. lia.
Qed.

Lemma binomial_rejects (n : nat) (p : R) (size : list nat) (g : RandomState) :
  (p < 0 \/ 1 < p)%R ->
  np.random.binomial n p size g = (Raise ValueError, g).
Proof.
  intros H. unfold np.random.binomial.
  destruct (Rlt_dec p 0) as [_ | H0]; [reflexivity|].
  destruct (Rlt_dec 1 p) as [_ | H1]; [reflexivity|].
  lra.
Qed.

Lemma Req_bool_false (a b : R) : a <> b -> Req_bool a b = false.
Proof. intros H. unfold Req_bool. now destruct (Req_dec_T a b). Qed.

(** The mask [Dropout.forward] draws from generator [g] for input [x]. *)
Lemma Dropout_forward_active (m : Dropout.t) (x : Tensor) (g : RandomState) :
  Dropout.training m = true ->
  Dropout.p_dropout m <> 0%R ->
  (0 <= 1 - Dropout.p_dropout m <= 1)%R ->
  Dropout.forward x (mkWorld m g)
  = (Ok (mkTensor (shape x)
           (tabulate (size x) (fun i =>
              (at_pos x i
               * np.random.bernoulli (1 - Dropout.p_dropout m)
                                     (uniform_draw g (consumed g + i))
               / (1.0 - Dropout.p_dropout m))%R))),
     mkWorld m (advance (size x * 1) g)).
Proof.
  intros Ht Hp Hq.
  unfold Dropout.forward, bind, reads, ret, lift, with_random.
  cbn [self np_random]. rewrite Ht, (Req_bool_false Hp). cbn [negb orb np_random self].
  rewrite (binomial_1 (shape x) g Hq).
  unfold np.astype_float32, tensor_from_numpy, TensorOps.mul. cbn [np_shape np_data].
  rewrite (@zip_same Rmult x _ (shape x)) by reflexivity.
  unfold TensorOps.truediv_scalar, TensorOps.map_scalar. cbn [shape data].
  rewrite map_tabulate. unfold size.
  do 3 f_equal. apply tabulate_ext. intros i Hi.
  now rewrite at_pos_mk.
Qed.

(** C4: in training mode with 0 < p_dropout < 1, the output of
    [Dropout.forward] has the shape of the input and is the input times a
    mask of zeros and ones of that shape, divided by 1 - p_dropout; so
    every output element is 0 or the input element scaled by
    1 / (1 - p_dropout). *)
Theorem Dropout_forward_masks (m : Dropout.t) (x : Tensor) (g : RandomState) :
  Dropout.training m = true ->
  (0 < Dropout.p_dropout m < 1)%R ->
  exists out mask g',
    Dropout.forward x (mkWorld m g) = (Ok out, mkWorld m g')
    /\ has_shape out (shape x)
    /\ has_shape mask (shape x)
    /\ is_mask mask
    /\ forall i, i < size x ->
         at_pos out i
         = (at_pos x i * at_pos mask i / (1 - Dropout.p_dropout m))%R
         /\ (at_pos out i = 0%R
             \/ at_pos out i
                = (at_pos x i * (1 / (1 - Dropout.p_dropout m)))%R).
Proof.
  intros Ht Hp.
  set (q := (1 - Dropout.p_dropout m)%R).
  set (mask := mkTensor (shape x)
                 (tabulate (size x) (fun i =>
                    np.random.bernoulli q (uniform_draw g (consumed g + i))))).
  eexists. exists mask. eexists.
  split; [apply Dropout_forward_active; [assumption | lra | lra]|].
  split; [apply tabulate_has_shape|].
  split; [apply tabulate_has_shape|].
  split.
  - apply Forall_tabulate. intros i _. apply bernoulli_cases.
  - intros i Hi. rewrite at_pos_mk by assumption.
    unfold mask. rewrite at_pos_mk by assumption. fold q.
    replace (1.0 - Dropout.p_dropout m)%R with q by (unfold q; lra).
    split; [reflexivity|].
    destruct (bernoulli_cases q (uniform_draw g (consumed g + i))) as [-> | ->].
    + left. unfold Rdiv. ring.
    + right. unfold Rdiv. ring.
Qed.

Lemma Dropout_forward_masks_witness :
  (Dropout.training Sample.dropout_half = true
   /\ (0 < Dropout.p_dropout Sample.dropout_half < 1)%R) /\
  exists out mask g',
    Dropout.forward Sample.x12 (mkWorld Sample.dropout_half Sample.tape)
    = (Ok out, mkWorld Sample.dropout_half g')
    /\ has_shape out (shape Sample.x12)
    /\ has_shape mask (shape Sample.x12)
    /\ is_mask mask.
Proof.
  assert (Ht : Dropout.training Sample.dropout_half = true) by reflexivity.
  assert (Hp : (0 < Dropout.p_dropout Sample.dropout_half < 1)%R)
    by (cbn; lra).
  split; [split; assumption|].
  destruct (@Dropout_forward_masks Sample.dropout_half Sample.x12 Sample.tape Ht Hp)
    as [out [mask [g' [Hrun [Ho [Hm [Hmask _]]]]]]].
  exists out, mask, g'. repeat split; try assumption; apply Ho || apply Hm.
Defined.

Lemma Dropout_forward_rejects (m : Dropout.t) (x : Tensor) (g : RandomState) :
  Dropout.training m = true ->
  (Dropout.p_dropout m < 0 \/ 1 < Dropout.p_dropout m)%R ->
  Dropout.forward x (mkWorld m g) = (Raise ValueError, mkWorld m g).
Proof.
  intros Ht Hp.
  unfold Dropout.forward, bind, reads, ret, lift, with_random.
  cbn [self np_random]. rewrite Ht, Req_bool_false by lra.
  cbn [negb orb np_random self].
  rewrite binomial_rejects by lra. reflexivity.
Qed.

(** [Dropout.forward] returns, unless the module is in training mode and
    numpy rejects its probability. *)
Lemma Dropout_forward_cases (m : Dropout.t) (x : Tensor) (g : RandomState) :
  (Dropout.training m = true
   /\ (Dropout.p_dropout m < 0 \/ 1 < Dropout.p_dropout m)%R
   /\ Dropout.forward x (mkWorld m g) = (Raise ValueError, mkWorld m g))
  \/ (exists out w, Dropout.forward x (mkWorld m g) = (Ok out, w)).
Proof.
  destruct (Dropout.training m) eqn:Ht.
  - destruct (Req_dec_T (Dropout.p_dropout m) 0) as [H0 | H0].
    + right. do 2 eexists. apply Dropout_forward_inactive. now right.
    + destruct (Rlt_dec (Dropout.p_dropout m) 0) as [Hneg | Hneg].
      { left. split; [reflexivity|]. split; [now left|].
        apply Dropout_forward_rejects; [assumption | now left]. }
      destruct (Rlt_dec 1 (Dropout.p_dropout m)) as [Hbig | Hbig].
      { left. split; [reflexivity|]. split; [now right|].
        apply Dropout_forward_rejects; [assumption | now right]. }
      right. do 2 eexists.
      apply Dropout_forward_active; [assumption | assumption | lra].
  - right. do 2 eexists. apply Dropout_forward_inactive. now left.
Qed.

(** C8: parameter validation apart, every [forward] returns normally on
    inputs that meet the documented shape precondition:
    [Embedding.forward] on a (batch_size, seq_len) tensor of in-range
    indices, [Linear.forward] on an (n, in_size) tensor,
    [LayerNorm1d.forward] on a (bs, dim) tensor, and [Dropout.forward] on
    a tensor of any shape.  The one error that can be reached is the
    ValueError with which np.random.binomial rejects a probability outside
    [0, 1], for a [Dropout] module in training mode whose [p_dropout] is
    not a probability. *)
Theorem forward_returns_normally :
  (forall m x bs seq_len g,
     Embedding_wf m -> has_shape x [bs; seq_len] ->
     class_indices (Embedding.num_embeddings m) x ->
     exists out, returned (Embedding.forward x) (mkWorld m g) = Ok out) /\
  (forall m x n g,
     Linear_wf m -> shape x = [n; Linear.in_size m] ->
     exists out, returned (Linear.forward x) (mkWorld m g) = Ok out) /\
  (forall m x n g,
     LayerNorm1d_wf m -> shape x = [n; LayerNorm1d.dim m] ->
     exists out, returned (LayerNorm1d.forward x) (mkWorld m g) = Ok out) /\
  (forall m x g,
     Dropout.training m = false \/ (0 <= Dropout.p_dropout m <= 1)%R ->
     exists out, returned (Dropout.forward x) (mkWorld m g) = Ok out) /\
  (forall m x g e,
     returned (Dropout.forward x) (mkWorld m g) = Raise e ->
     e = ValueError
     /\ Dropout.training m = true
     /\ (Dropout.p_dropout m < 0 \/ 1 < Dropout.p_dropout m)%R).
Proof.
  unfold returned. repeat split.
  - intros m x bs seq_len g Hwf Hx Hc.
    rewrite (@Embedding_forward_closed m x bs seq_len g Hwf Hx Hc).
    eexists. reflexivity.
  - intros m x n g Hwf Hx.
    rewrite (@Linear_forward_closed m x n g Hwf Hx). eexists. reflexivity.
  - intros m x n g Hwf Hx.
    rewrite (@LayerNorm1d_forward_closed m x n g Hwf Hx). eexists. reflexivity.
  - intros m x g Hp.
    destruct (Dropout_forward_cases m x g) as [[Ht [Hout _]] | [out [w Hrun]]].
    + exfalso. destruct Hp as [Hf | Hin]; [congruence | lra].
    + exists out. now rewrite Hrun.
  - destruct (Dropout_forward_cases m x g) as [[_ [_ Hrun]] | [out [w Hrun]]];
      rewrite Hrun in H; cbn [fst] in H; congruence.
  - destruct (Dropout_forward_cases m x g) as [[Ht _] | [out [w Hrun]]];
      [exact Ht | rewrite Hrun in H; discriminate].
  - destruct (Dropout_forward_cases m x g) as [[_ [Hp _]] | [out [w Hrun]]];
      [exact Hp | rewrite Hrun in H; discriminate].
Qed.

Lemma forward_returns_normally_witness :
  ((Dropout.training Sample.dropout_half = false
    \/ (0 <= Dropout.p_dropout Sample.dropout_half <= 1)%R)
   /\ Linear_wf Sample.linear
   /\ shape Sample.x12 = [1; Linear.in_size Sample.linear]) /\
  (exists out,
     returned (Dropout.forward Sample.x12)
              (mkWorld Sample.dropout_half Sample.tape) = Ok out) /\
  (exists out,
     returned (Linear.forward Sample.x12)
              (mkWorld Sample.linear Sample.tape) = Ok out).
Proof.
  assert (Hp : Dropout.training Sample.dropout_half = false
               \/ (0 <= Dropout.p_dropout Sample.dropout_half <= 1)%R)
    by (right; cbn; lra).
  assert (Hwf : Linear_wf Sample.linear) by (repeat split).
  assert (Hx : shape Sample.x12 = [1; Linear.in_size Sample.linear])
    by reflexivity.
  destruct forward_returns_normally as [_ [HL [_ [HD _]]]].
  split; [split; [exact Hp | split; [exact Hwf | exact Hx]]|].
  split.
  - apply (HD Sample.dropout_half Sample.x12 Sample.tape Hp).
  - apply (HL Sample.linear Sample.x12 1 Sample.tape Hwf Hx).
Defined.

(** ** What a result depends on *)

Lemma ignores_random_ret {M A : Type} (a : A) : ignores_random (@ret (World M) A a).
Proof. intros w1 w2 _. reflexivity. Qed.

Lemma ignores_random_lift {M A : Type} (r : result A) :
  ignores_random (@lift (World M) A r).
Proof. intros w1 w2 _. reflexivity. Qed.

Lemma ignores_random_reads {M A B : Type} (f : M -> A) (h : A -> B) :
  ignores_random (reads (fun w : World M => h (f (self w)))).
Proof. intros w1 w2 H. unfold returned, reads. cbn [fst]. now rewrite H. Qed.

Lemma ignores_random_attempt {M A : Type} (f : M -> result A) :
  ignores_random (attempt (fun w : World M => f (self w))).
Proof. intros w1 w2 H. unfold returned, attempt. cbn [fst]. now rewrite H. Qed.

Lemma ignores_random_bind {M A B : Type}
    (c : Py (World M) A) (k : A -> Py (World M) B) :
  read_only c -> ignores_random c -> (forall a, ignores_random (k a)) ->
  ignores_random (bind c k).
Proof.
  intros Hro Hc Hk w1 w2 Hw.
  specialize (Hc w1 w2 Hw). unfold returned, bind in *.
  pose proof (Hro w1) as H1. pose proof (Hro w2) as H2.
  unfold state_after in H1, H2.
  destruct (c w1) as [r1 s1], (c w2) as [r2 s2].
  cbn [fst snd] in *. subst s1 s2 r2.
  destruct r1 as [a|e]; [now apply Hk | reflexivity].
Qed.

#[local] Hint Resolve ignores_random_ret ignores_random_lift
  ignores_random_attempt : frame.

Ltac independent :=
  repeat first
    [ apply ignores_random_bind; [auto with frame | | intros ?]
    | match goal with
      | |- context [match ?p with pair _ _ => _ end] => destruct p
      | |- context [if ?b then _ else _] => destruct b
      end
    | solve [auto with frame]
    | apply (ignores_random_reads _ (fun a => a)) ].

Lemma Embedding_forward_ignores_random (x : Tensor) :
  ignores_random (Embedding.forward x).
Proof.
  unfold Embedding.forward. independent.
  - apply (ignores_random_reads Embedding.weights value).
Qed.

Lemma Linear_forward_ignores_random (x : Tensor) :
  ignores_random (Linear.forward x).
Proof.
  unfold Linear.forward. independent.
  all: try apply (ignores_random_reads Linear.weights value).
  all: apply (ignores_random_attempt Linear.bias_value).
Qed.

Lemma LayerNorm1d_forward_ignores_random (x : Tensor) :
  ignores_random (LayerNorm1d.forward x).
Proof.
  unfold LayerNorm1d.forward. independent.
  - apply (ignores_random_reads LayerNorm1d.weights value).
  - apply (ignores_random_reads LayerNorm1d.bias value).
Qed.

(** The result of [Dropout.forward] is a function of the module, the input
    and the uniform draws it reads, one per element. *)
Lemma Dropout_forward_same_draws (m : Dropout.t) (x : Tensor) (g1 g2 : RandomState) :
  (forall i, i < size x ->
     uniform_draw g1 (consumed g1 + i) = uniform_draw g2 (consumed g2 + i)) ->
  returned (Dropout.forward x) (mkWorld m g1)
  = returned (Dropout.forward x) (mkWorld m g2).
Proof.
  intros Hdraws.
  unfold returned, Dropout.forward, bind, reads, ret, lift, with_random.
  cbn [self np_random].
  destruct (negb (Dropout.training m) || Req_bool (Dropout.p_dropout m) 0);
    [reflexivity|].
  cbn [np_random self]. unfold np.random.binomial.
  destruct (Rlt_dec (1 - Dropout.p_dropout m) 0); [reflexivity|].
  destruct (Rlt_dec 1 (1 - Dropout.p_dropout m)); [reflexivity|].
  replace (tabulate (Shape.prod (shape x)) (fun i =>
             rsum 1 (fun k =>
               np.random.bernoulli (1 - Dropout.p_dropout m)
                 (uniform_draw g1 (consumed g1 + i * 1 + k)))))
    with (tabulate (Shape.prod (shape x)) (fun i =>
             rsum 1 (fun k =>
               np.random.bernoulli (1 - Dropout.p_dropout m)
                 (uniform_draw g2 (consumed g2 + i * 1 + k))))).
  - destruct (TensorOps.mul x _); reflexivity.
  - apply tabulate_ext. intros i Hi. rewrite !rsum_1.
    replace (consumed g1 + i * 1 + 0) with (consumed g1 + i) by lia.
    replace (consumed g2 + i * 1 + 0) with (consumed g2 + i) by lia.
    now rewrite Hdraws.
Qed.

(** C9 (as the code has it): the result of [forward] is a function of the
    module state and the input for [Embedding], [Linear] and
    [LayerNorm1d], and for [Dropout] outside of active training; in
    active training the result of [Dropout.forward] is a function of the
    module state, the input and the draws taken from numpy's generator. *)
Theorem forward_deterministic :
  (forall x m g1 g2,
     returned (Embedding.forward x) (mkWorld m g1)
     = returned (Embedding.forward x) (mkWorld m g2)) /\
  (forall x m g1 g2,
     returned (Linear.forward x) (mkWorld m g1)
     = returned (Linear.forward x) (mkWorld m g2)) /\
  (forall x m g1 g2,
     returned (LayerNorm1d.forward x) (mkWorld m g1)
     = returned (LayerNorm1d.forward x) (mkWorld m g2)) /\
  (forall x m g1 g2,
     Dropout.training m = false \/ Dropout.p_dropout m = 0%R ->
     returned (Dropout.forward x) (mkWorld m g1)
     = returned (Dropout.forward x) (mkWorld m g2)) /\
  (forall x m g1 g2,
     (forall i, i < size x ->
        uniform_draw g1 (consumed g1 + i) = uniform_draw g2 (consumed g2 + i)) ->
     returned (Dropout.forward x) (mkWorld m g1)
     = returned (Dropout.forward x) (mkWorld m g2)).
Proof.
  repeat split.
  - intros x m g1 g2. now apply Embedding_forward_ignores_random.
  - intros x m g1 g2. now apply Linear_forward_ignores_random.
  - intros x m g1 g2. now apply LayerNorm1d_forward_ignores_random.
  - intros x m g1 g2 H. unfold returned.
    now rewrite !Dropout_forward_inactive.
  - intros x m g1 g2 H. now apply Dropout_forward_same_draws.
Qed.

Lemma forward_deterministic_witness :
  (Dropout.training Sample.dropout_eval = false
   \/ Dropout.p_dropout Sample.dropout_eval = 0%R) /\
  returned (Dropout.forward Sample.x12) (mkWorld Sample.dropout_eval Sample.tape)
  = returned (Dropout.forward Sample.x12)
             (mkWorld Sample.dropout_eval (advance 2 Sample.tape)).
Proof.
  assert (H : Dropout.training Sample.dropout_eval = false
              \/ Dropout.p_dropout Sample.dropout_eval = 0%R)
    by (left; reflexivity).
  split; [exact H|].
  destruct forward_deterministic as [_ [_ [_ [HD _]]]].
  apply (HD Sample.x12 Sample.dropout_eval Sample.tape (advance 2 Sample.tape) H).
Defined.

(** C9 as stated fails for [Dropout] in training mode: two calls of
    [forward] in a row, on the same module and the same input, draw
    different masks and return different tensors. *)
Lemma Dropout_forward_not_deterministic :
  let w0 := mkWorld Sample.dropout_half Sample.tape in
  let w1 := state_after (Dropout.forward Sample.x12) w0 in
  self w1 = self w0 /\
  returned (Dropout.forward Sample.x12) w0
  <> returned (Dropout.forward Sample.x12) w1.
Proof.
  cbv zeta.
  assert (Ht : Dropout.training Sample.dropout_half = true) by reflexivity.
  assert (Hp : Dropout.p_dropout Sample.dropout_half <> 0%R) by (cbn; lra).
  assert (Hq : (0 <= 1 - Dropout.p_dropout Sample.dropout_half <= 1)%R)
    by (cbn; lra).
  unfold state_after, returned.
  rewrite (@Dropout_forward_active Sample.dropout_half Sample.x12 Sample.tape Ht Hp Hq).
  cbn [snd fst]. split; [reflexivity|].
  rewrite (@Dropout_forward_active Sample.dropout_half Sample.x12 _ Ht Hp Hq).
  cbn [fst]. intros H.
  assert (H0 : nth 0 (tabulate (size Sample.x12) (fun i =>
                 (at_pos Sample.x12 i
                  * np.random.bernoulli (1 - Dropout.p_dropout Sample.dropout_half)
                      (uniform_draw Sample.tape (consumed Sample.tape + i))
                  / (1.0 - Dropout.p_dropout Sample.dropout_half))%R)) 0%R
               = nth 0 (tabulate (size Sample.x12) (fun i =>
                 (at_pos Sample.x12 i
                  * np.random.bernoulli (1 - Dropout.p_dropout Sample.dropout_half)
                      (uniform_draw (advance (size Sample.x12 * 1) Sample.tape)
                         (consumed (advance (size Sample.x12 * 1) Sample.tape) + i))
                  / (1.0 - Dropout.p_dropout Sample.dropout_half))%R)) 0%R)
    by congruence.
  clear H. revert H0.
  rewrite !nth_tabulate by (cbn; lia).
  unfold np.random.bernoulli.
  cbn [Sample.x12 size shape Shape.prod Nat.mul Nat.add nth at_pos data
       Sample.tape uniform_draw consumed advance Nat.eqb
       Sample.dropout_half Dropout.__init__ Dropout.p_dropout].
  destruct (Rle_dec (1 - 0.5) 0.5) as [_ | Hn]; [|lra].
  destruct (Rlt_dec (1 - (1 - 0.5)) 0.25) as [Hn | _]; [lra|].
  destruct (Rlt_dec (1 - (1 - 0.5)) 0.75) as [_ | Hn]; [|lra].
  lra.
Qed.

(** ** The layers on the sample objects *)

Example Linear_forward_sample :
  returned (Linear.forward Sample.x12) (mkWorld Sample.linear Sample.tape)
  = Ok (mkTensor [1; 2] [20%R; 34%R]).
Proof.
  unfold returned.
  rewrite (@Linear_forward_closed Sample.linear Sample.x12 1 Sample.tape)
    by (repeat split).
  cbn [fst]. do 2 f_equal.
  unfold tabulate, dot_row_col, rsum, tabulate, sum_list, at_pos.
  cbn -[Rplus Rmult IZR]. repeat f_equal; lra.
Qed.

Example Embedding_forward_sample :
  exists out,
    returned (Embedding.forward Sample.tokens)
             (mkWorld Sample.embedding Sample.tape) = Ok out
    /\ shape out = [1; 1; 2]
    /\ get out [0; 0; 0] = 3%R /\ get out [0; 0; 1] = 4%R.
Proof.
  assert (Hwf : Embedding_wf Sample.embedding) by (repeat split).
  assert (Hx : has_shape Sample.tokens [1; 1]) by (repeat split).
  assert (Hc : class_indices (Embedding.num_embeddings Sample.embedding)
                             Sample.tokens).
  { constructor; [|constructor]. exists 1. split; [cbn; lia | reflexivity]. }
  unfold returned.
  rewrite (@Embedding_forward_closed Sample.embedding Sample.tokens 1 1
             Sample.tape Hwf Hx Hc).
  eexists. split; [reflexivity|]. split; [reflexivity|].
  assert (Hk : classes_of (data Sample.tokens) = [1]).
  { unfold classes_of. cbn [Sample.tokens data map].
    now rewrite astype_int_INR. }
  rewrite Hk.
  unfold get, at_pos, dot_row_col, rsum, tabulate, sum_list.
  cbn -[Rplus Rmult IZR]. split; lra.
Qed.

(** * Further properties of the layers *)

(** ** Construction of [Linear] *)


(** ** Inputs that are not two-dimensional *)

Lemma unpack2_rejects (s : list nat) :
  length s <> 2 -> unpack2 s = Raise ValueError.
Proof.
  intros H. destruct s as [|a [|b [|c s]]]; try reflexivity.
  now contradiction H.
Qed.

(** X3: [Embedding.forward], [Linear.forward] and [LayerNorm1d.forward]
    unpack [x.shape] into two names first, so an input that is not
    two-dimensional raises ValueError, whatever the module holds, and
    module and generator stay as they were. *)
Theorem forward_rejects_wrong_rank
    (x : Tensor) (we : World Embedding.t) (wl : World Linear.t)
    (wn : World LayerNorm1d.t) :
  length (shape x) <> 2 ->
  Embedding.forward x we = (Raise ValueError, we)
  /\ Linear.forward x wl = (Raise ValueError, wl)
  /\ LayerNorm1d.forward x wn = (Raise ValueError, wn).
Proof.
  intros H.
  unfold Embedding.forward, Linear.forward, LayerNorm1d.forward, bind, lift.
  rewrite (@unpack2_rejects (shape x) H). repeat split.
Qed.

Lemma forward_rejects_wrong_rank_witness :
  length (shape Sample.b2) <> 2 /\
  Linear.forward Sample.b2 (mkWorld Sample.linear Sample.tape)
  = (Raise ValueError, mkWorld Sample.linear Sample.tape).
Proof.
  assert (H : length (shape Sample.b2) <> 2) by (cbn; lia).
  split; [exact H|].
  apply (@forward_rejects_wrong_rank Sample.b2
           (mkWorld Sample.embedding Sample.tape)
           (mkWorld Sample.linear Sample.tape)
           (mkWorld Sample.layer_norm Sample.tape) H).
Defined.

(** ** When [Dropout.forward] raises *)

(** X4: in training mode with [p_dropout] above 1, [Dropout.forward]
    raises ValueError on every input: np.random.binomial rejects the
    negative probability 1 - p_dropout before it samples, so module and
    generator stay as they were. *)
Theorem Dropout_forward_rejects_large_p
    (m : Dropout.t) (x : Tensor) (g : RandomState) :
  Dropout.training m = true ->
  (1 < Dropout.p_dropout m)%R ->
  Dropout.forward x (mkWorld m g) = (Raise ValueError, mkWorld m g).
Proof.
  intros Ht Hp. apply Dropout_forward_rejects; [exact Ht | now right].
Qed.

Lemma Dropout_forward_rejects_large_p_witness :
  (Dropout.training (Dropout.__init__ 1.5) = true
   /\ (1 < Dropout.p_dropout (Dropout.__init__ 1.5))%R) /\
  Dropout.forward Sample.x12 (mkWorld (Dropout.__init__ 1.5) Sample.tape)
  = (Raise ValueError, mkWorld (Dropout.__init__ 1.5) Sample.tape).
Proof.
  assert (Ht : Dropout.training (Dropout.__init__ 1.5) = true) by reflexivity.
  assert (Hp : (1 < Dropout.p_dropout (Dropout.__init__ 1.5))%R) by (cbn; lra).
  split; [split; assumption|].
  apply (@Dropout_forward_rejects_large_p (Dropout.__init__ 1.5) Sample.x12
           Sample.tape Ht Hp).
Defined.

(** ** What layer normalisation does to a row *)

Lemma rsum_scale (n : nat) (f : nat -> R) (c : R) :
  rsum n (fun k => f k * c)%R = (rsum n f * c)%R.
Proof.
  revert f. induction n as [|n IH]; intros f.
  - unfold rsum. simpl. lra.
  - rewrite !rsum_S, IH. lra.
Qed.

Lemma rsum_nonneg (n : nat) (f : nat -> R) :
  (forall k, k < n -> (0 <= f k)%R) -> (0 <= rsum n f)%R.
Proof.
  revert f. induction n as [|n IH]; intros f H.
  - unfold rsum. simpl. lra.
  - rewrite rsum_S.
    assert (0 <= f 0%nat)%R by (apply H; lia).
    assert (0 <= rsum n (fun k => f (S k)))%R by (apply IH; intros; apply H; lia).
    lra.
Qed.

Lemma rsum_term_le (n : nat) (f : nat -> R) (j : nat) :
  (forall k, k < n -> (0 <= f k)%R) -> j < n -> (f j <= rsum n f)%R.
Proof.
  revert f j. induction n as [|n IH]; intros f j H Hj; [lia|].
  rewrite rsum_S.
  assert (0 <= f 0%nat)%R by (apply H; lia).
  assert (0 <= rsum n (fun k => f (S k)))%R
    by (apply rsum_nonneg; intros; apply H; lia).
  destruct j as [|j]; [lra|].
  assert (f (S j) <= rsum n (fun k => f (S k)))%R
    by (apply (IH (fun k => f (S k))); [intros; apply H; lia | lia]).
  lra.
Qed.

Lemma centered_sum_zero (d : nat) (X : nat -> R) :
  rsum d (fun j => X j - rsum d X / INR d)%R = 0%R.
Proof.
  rewrite (rsum_ext _ (fun j => X j + - (rsum d X / INR d))%R)
    by (intros; lra).
  rewrite rsum_plus, rsum_const.
  destruct d as [|d].
  - unfold rsum, tabulate, sum_list. cbn [seq map fold_right INR]. ring.
  - assert (INR (S d) <> 0%R) by (apply not_0_INR; lia). field. assumption.
Qed.

Lemma row_var_nonneg (x : Tensor) (d i : nat) : (0 <= row_var x d i)%R.
Proof.
  unfold row_var.
  assert (0 <= rsum d (fun k =>
            (at_pos x (i * d + k) - row_mean x d i)
            * (at_pos x (i * d + k) - row_mean x d i)))%R
    by (apply rsum_nonneg; intros; apply Rle_0_sqr).
  destruct d as [|d].
  - cbn [INR]. unfold Rdiv. rewrite Rinv_0. lra.
  - apply Rmult_le_pos; [assumption|].
    apply Rlt_le, Rinv_0_lt_compat, lt_0_INR. lia.
Qed.

Lemma at_pos_ones (d j : nat) :
  j < d -> at_pos (tensor_from_numpy (np.ones [d])) j = 1%R.
Proof.
  intros Hj. unfold tensor_from_numpy, np.ones. cbn [np_shape np_data].
  apply at_pos_mk. cbn [Shape.prod]. lia.
Qed.

Lemma at_pos_zeros (d j : nat) :
  j < d -> at_pos (tensor_from_numpy (np.zeros [d])) j = 0%R.
Proof.
  intros Hj. unfold tensor_from_numpy, np.zeros. cbn [np_shape np_data].
  apply at_pos_mk. cbn [Shape.prod]. lia.
Qed.

(** The rows a freshly constructed [LayerNorm1d] returns: the deviations
    from the row mean over the square root of variance plus eps. *)
Lemma LayerNorm1d_fresh_rows
    (d : nat) (eps : R) (be : TensorBackend) (x : Tensor) (n : nat)
    (g : RandomState) :
  has_shape x [n; d] ->
  exists out,
    LayerNorm1d.forward x (mkWorld (LayerNorm1d.__init__ d eps be) g)
    = (Ok out, mkWorld (LayerNorm1d.__init__ d eps be) g)
    /\ forall i, i < n ->
         row x i = tabulate d (fun j => at_pos x (i * d + j))
         /\ row out i
            = tabulate d (fun j =>
                ((at_pos x (i * d + j) - row_mean x d i)
                 / sqrt (row_var x d i + eps))%R).
Proof.
  intros Hxs. eexists. split.
  - apply (@LayerNorm1d_forward_closed (LayerNorm1d.__init__ d eps be) x n g).
    + apply LayerNorm1d_init_wf.
    + apply Hxs.
  - intros i Hi. split; [now apply (row_tabulate Hxs)|].
    unfold row. cbn [shape data nth LayerNorm1d.__init__ LayerNorm1d.dim
                     LayerNorm1d.eps LayerNorm1d.weights LayerNorm1d.bias value].
    rewrite tabulate_window by assumption.
    apply tabulate_ext. intros j Hj.
    destruct (div_mod_row i Hj) as [-> ->].
    rewrite at_pos_ones, at_pos_zeros by assumption. lra.
Qed.

Lemma normalised_row_mean (d : nat) (X : nat -> R) (s : R) :
  list_mean (tabulate d (fun j => (X j - rsum d X / INR d) / s)%R) = 0%R.
Proof.
  unfold list_mean. rewrite tabulate_length.
  change (sum_list (tabulate d (fun j => (X j - rsum d X / INR d) / s)%R))
    with (rsum d (fun j => (X j - rsum d X / INR d) / s)%R).
  unfold Rdiv at 2.
  rewrite (rsum_scale d (fun j => X j - rsum d X / INR d)%R (/ s)).
  rewrite centered_sum_zero. unfold Rdiv. ring.
Qed.

(** X5: a freshly constructed [LayerNorm1d] (weights 1, bias 0) with a
    positive [eps] maps every row of a (bs, dim) input to a row whose
    arithmetic mean is 0. *)
Theorem LayerNorm1d_fresh_output_mean
    (d : nat) (eps : R) (be : TensorBackend) (x : Tensor) (n : nat)
    (g : RandomState) :
  (0 < eps)%R ->
  has_shape x [n; d] ->
  exists out,
    returned (LayerNorm1d.forward x) (mkWorld (LayerNorm1d.__init__ d eps be) g)
    = Ok out
    /\ forall i, i < n -> list_mean (row out i) = 0%R.
Proof.
  intros _ Hxs.
  destruct (@LayerNorm1d_fresh_rows d eps be x n g Hxs) as [out [Hrun Hrows]].
  exists out. unfold returned. rewrite Hrun. split; [reflexivity|].
  intros i Hi. destruct (Hrows i Hi) as [_ ->].
  apply normalised_row_mean.
Qed.

Lemma LayerNorm1d_fresh_output_mean_witness :
  ((0 < 1)%R /\ has_shape Sample.x12 [1; 2]) /\
  exists out,
    returned (LayerNorm1d.forward Sample.x12)
             (mkWorld Sample.layer_norm Sample.tape) = Ok out
    /\ forall i, i < 1 -> list_mean (row out i) = 0%R.
Proof.
  assert (He : (0 < 1)%R) by lra.
  assert (Hx : has_shape Sample.x12 [1; 2]) by (repeat split).
  split; [split; assumption|].
  apply (@LayerNorm1d_fresh_output_mean 2 1 Sample.cpu Sample.x12 1
           Sample.tape He Hx).
Defined.

(** X6: with a positive [eps], a freshly constructed [LayerNorm1d] maps a
    row of biased variance v to a row of biased variance v / (v + eps),
    which is below 1. *)
Theorem LayerNorm1d_fresh_output_variance
    (d : nat) (eps : R) (be : TensorBackend) (x : Tensor) (n : nat)
    (g : RandomState) :
  (0 < eps)%R ->
  has_shape x [n; d] ->
  exists out,
    returned (LayerNorm1d.forward x) (mkWorld (LayerNorm1d.__init__ d eps be) g)
    = Ok out
    /\ forall i, i < n ->
         list_var (row out i)
         = (list_var (row x i) / (list_var (row x i) + eps))%R
         /\ (0 <= list_var (row out i) < 1)%R.
Proof.
  intros He Hxs.
  destruct (@LayerNorm1d_fresh_rows d eps be x n g Hxs) as [out [Hrun Hrows]].
  exists out. unfold returned. rewrite Hrun. split; [reflexivity|].
  intros i Hi. destruct (Hrows i Hi) as [-> ->].
  rewrite list_var_row.
  pose proof (row_var_nonneg x d i) as Hv.
  set (v := row_var x d i) in *.
  assert (Hs : (sqrt (v + eps) * sqrt (v + eps) = v + eps)%R)
    by (apply sqrt_sqrt; lra).
  assert (Hs0 : (0 < sqrt (v + eps))%R) by (apply sqrt_lt_R0; lra).
  assert (Hvar : list_var (tabulate d (fun j =>
                   ((at_pos x (i * d + j) - row_mean x d i)
                    / sqrt (v + eps))%R)) = (v / (v + eps))%R).
  { unfold list_var. unfold row_mean at 1 2.
    rewrite (normalised_row_mean d (fun j => at_pos x (i * d + j))).
    rewrite map_tabulate. unfold list_mean. rewrite tabulate_length.
    change (sum_list (tabulate d ?f)) with (rsum d f).
    rewrite (rsum_ext _
               (fun j => (at_pos x (i * d + j) - row_mean x d i)
                         * (at_pos x (i * d + j) - row_mean x d i)
                         * / (v + eps))%R).
    - rewrite rsum_scale.
      set (S := rsum d _).
      assert (Hvdef : v = (S / INR d)%R) by reflexivity.
      rewrite Hvdef at 2. unfold Rdiv. ring.
    - intros j Hj. fold (row_mean x d i).
      set (s := sqrt (v + eps)) in *.
      rewrite <- Hs. field. lra. }
  rewrite Hvar. split; [reflexivity|].
  split.
  - apply Rmult_le_pos; [assumption|].
    apply Rlt_le, Rinv_0_lt_compat. lra.
  - apply (Rmult_lt_reg_r (v + eps)); [lra|].
    unfold Rdiv. rewrite Rmult_assoc, Rinv_l by lra. lra.
Qed.

Lemma LayerNorm1d_fresh_output_variance_witness :
  ((0 < 1)%R /\ has_shape Sample.x12 [1; 2]) /\
  exists out,
    returned (LayerNorm1d.forward Sample.x12)
             (mkWorld Sample.layer_norm Sample.tape) = Ok out
    /\ forall i, i < 1 -> (0 <= list_var (row out i) < 1)%R.
Proof.
  assert (He : (0 < 1)%R) by lra.
  assert (Hx : has_shape Sample.x12 [1; 2]) by (repeat split).
  split; [split; assumption|].
  destruct (@LayerNorm1d_fresh_output_variance 2 1 Sample.cpu Sample.x12 1
              Sample.tape He Hx) as [out [Hrun Hv]].
  exists out. split; [exact Hrun|]. intros i Hi. apply (Hv i Hi).
Defined.

(** X7: with a positive [eps], every entry of the output of a freshly
    constructed [LayerNorm1d] is at most sqrt(dim) in absolute value: its
    square is at most dim. *)
Theorem LayerNorm1d_fresh_output_bounded
    (d : nat) (eps : R) (be : TensorBackend) (x : Tensor) (n : nat)
    (g : RandomState) :
  (0 < eps)%R ->
  has_shape x [n; d] ->
  exists out,
    returned (LayerNorm1d.forward x) (mkWorld (LayerNorm1d.__init__ d eps be) g)
    = Ok out
    /\ forall i, i < n -> Forall (fun v => (v * v <= INR d)%R) (row out i).
Proof.
  intros He Hxs.
  destruct (@LayerNorm1d_fresh_rows d eps be x n g Hxs) as [out [Hrun Hrows]].
  exists out. unfold returned. rewrite Hrun. split; [reflexivity|].
  intros i Hi. destruct (Hrows i Hi) as [_ ->].
  apply Forall_tabulate. intros j Hj.
  pose proof (row_var_nonneg x d i) as Hv.
  assert (Hd : (0 < INR d)%R) by (apply lt_0_INR; lia).
  assert (Hterm :
    ((at_pos x (i * d + j) - row_mean x d i)
     * (at_pos x (i * d + j) - row_mean x d i)
     <= INR d * row_var x d i)%R).
  { unfold row_var at 1.
    replace (INR d * (rsum d (fun k =>
               (at_pos x (i * d + k) - row_mean x d i)
               * (at_pos x (i * d + k) - row_mean x d i)) / INR d))%R
      with (rsum d (fun k =>
               (at_pos x (i * d + k) - row_mean x d i)
               * (at_pos x (i * d + k) - row_mean x d i))%R)
      by (field; lra).
    apply (@rsum_term_le d (fun k =>
             (at_pos x (i * d + k) - row_mean x d i)
             * (at_pos x (i * d + k) - row_mean x d i))%R j);
      [intros; apply Rle_0_sqr | assumption]. }
  set (v := row_var x d i) in *.
  set (a := (at_pos x (i * d + j) - row_mean x d i)%R) in *.
  assert (Hs : (sqrt (v + eps) * sqrt (v + eps) = v + eps)%R)
    by (apply sqrt_sqrt; lra).
  assert (Hs0 : (0 < sqrt (v + eps))%R) by (apply sqrt_lt_R0; lra).
  replace (a / sqrt (v + eps) * (a / sqrt (v + eps)))%R
    with (a * a * / (v + eps))%R
    by (set (s := sqrt (v + eps)) in *; rewrite <- Hs; field; lra).
  apply (Rmult_le_reg_r (v + eps)); [lra|].
  rewrite Rmult_assoc, Rinv_l by lra. nra.
Qed.

Lemma LayerNorm1d_fresh_output_bounded_witness :
  ((0 < 1)%R /\ has_shape Sample.x12 [1; 2]) /\
  exists out,
    returned (LayerNorm1d.forward Sample.x12)
             (mkWorld Sample.layer_norm Sample.tape) = Ok out
    /\ forall i, i < 1 -> Forall (fun v => (v * v <= INR 2)%R) (row out i).
Proof.
  assert (He : (0 < 1)%R) by lra.
  assert (Hx : has_shape Sample.x12 [1; 2]) by (repeat split).
  split; [split; assumption|].
  apply (@LayerNorm1d_fresh_output_bounded 2 1 Sample.cpu Sample.x12 1
           Sample.tape He Hx).
Defined.

(** X8: over exact arithmetic and with a positive [eps],
    [LayerNorm1d.forward] maps a row whose entries are all equal to the
    bias: the deviations from the mean are 0, so the weights have no part
    in the result. *)
Theorem LayerNorm1d_constant_row
    (m : LayerNorm1d.t) (x : Tensor) (n i : nat) (c : R) (g : RandomState) :
  (0 < LayerNorm1d.eps m)%R ->
  LayerNorm1d_wf m ->
  has_shape x [n; LayerNorm1d.dim m] ->
  i < n ->
  row x i = repeat c (LayerNorm1d.dim m) ->
  exists out,
    returned (LayerNorm1d.forward x) (mkWorld m g) = Ok out
    /\ row out i = data (value (LayerNorm1d.bias m)).
Proof.
  intros _ Hwf Hxs Hi Hrow.
  eexists. unfold returned.
  rewrite (@LayerNorm1d_forward_closed m x n g Hwf (proj1 Hxs)).
  split; [reflexivity|].
  set (d := LayerNorm1d.dim m) in *.
  rewrite (row_tabulate Hxs Hi) in Hrow.
  assert (Hc : forall j, j < d -> at_pos x (i * d + j) = c).
  { intros j Hj.
    rewrite <- (@nth_tabulate R d (fun j => at_pos x (i * d + j)) j 0%R Hj).
    rewrite Hrow.
    rewrite (nth_indep _ 0%R c) by (rewrite repeat_length; exact Hj).
    apply nth_repeat. }
  destruct Hwf as [_ [HB HBwf]].
  unfold Tensor_wf, size in HBwf. rewrite HB in HBwf.
  cbn [Shape.prod] in HBwf. rewrite Nat.mul_1_r in HBwf.
  unfold row. cbn [shape data nth].
  rewrite tabulate_window by assumption.
  rewrite <- (tabulate_nth (data (value (LayerNorm1d.bias m))) 0%R), HBwf.
  apply tabulate_ext. intros j Hj.
  destruct (@div_mod_row d i j Hj) as [-> ->].
  assert (Hmu : row_mean x d i = c).
  { unfold row_mean.
    rewrite (rsum_ext _ (fun _ => c)) by (intros k Hk; now apply Hc).
    rewrite rsum_const.
    assert (INR d <> 0%R) by (apply not_0_INR; lia). now field. }
  rewrite (Hc j Hj), Hmu. unfold at_pos, Rdiv. ring.
Qed.

Lemma LayerNorm1d_constant_row_witness :
  ((0 < LayerNorm1d.eps Sample.layer_norm)%R
   /\ LayerNorm1d_wf Sample.layer_norm
   /\ has_shape (mkTensor [1; 2] [7%R; 7%R]) [1; 2]
   /\ row (mkTensor [1; 2] [7%R; 7%R]) 0 = repeat 7%R 2) /\
  exists out,
    returned (LayerNorm1d.forward (mkTensor [1; 2] [7%R; 7%R]))
             (mkWorld Sample.layer_norm Sample.tape) = Ok out
    /\ row out 0 = data (value (LayerNorm1d.bias Sample.layer_norm)).
Proof.
  assert (He : (0 < LayerNorm1d.eps Sample.layer_norm)%R) by (cbn; lra).
  assert (Hwf : LayerNorm1d_wf Sample.layer_norm) by apply LayerNorm1d_init_wf.
  assert (Hx : has_shape (mkTensor [1; 2] [7%R; 7%R])
                         [1; LayerNorm1d.dim Sample.layer_norm])
    by (repeat split).
  assert (Hi : 0 < 1) by lia.
  assert (Hrow : row (mkTensor [1; 2] [7%R; 7%R]) 0
                 = repeat 7%R (LayerNorm1d.dim Sample.layer_norm))
    by reflexivity.
  split; [repeat split; assumption|].
  apply (@LayerNorm1d_constant_row Sample.layer_norm _ 1 0 7 Sample.tape
           He Hwf Hx Hi Hrow).
Defined.

(** ** [Linear] without a bias is a linear map *)

Lemma Linear_forward_no_bias (m : Linear.t) (x : Tensor) (n : nat) (g : RandomState) :
  Linear_wf m -> Linear.use_bias m = false ->
  shape x = [n; Linear.in_size m] ->
  Linear.forward x (mkWorld m g)
  = (Ok (mkTensor [n; Linear.out_size m]
           (tabulate (n * Linear.out_size m) (fun p =>
              dot_row_col x (value (Linear.weights m))
                          (Linear.in_size m) (Linear.out_size m)
                          (p / Linear.out_size m) (p mod Linear.out_size m)))),
     mkWorld m g).
Proof.
  intros Hwf Hu Hx. rewrite (@Linear_forward_closed m x n g Hwf Hx).
  destruct Hwf as [_ Hb].
  destruct (Linear.bias m) as [b|]; [|reflexivity].
  destruct Hb as [Hb _]. congruence.
Qed.

Lemma dot_row_col_plus (x1 x2 s w : Tensor) (k o i j : nat) :
  (forall l, l < k ->
     at_pos s (i * k + l) = (at_pos x1 (i * k + l) + at_pos x2 (i * k + l))%R) ->
  dot_row_col s w k o i j
  = (dot_row_col x1 w k o i j + dot_row_col x2 w k o i j)%R.
Proof.
  intros H. unfold dot_row_col. rewrite <- rsum_plus.
  apply rsum_ext. intros l Hl. rewrite (H l Hl). ring.
Qed.

Lemma dot_row_col_div (x s w : Tensor) (c : R) (k o i j : nat) :
  (forall l, l < k -> at_pos s (i * k + l) = (at_pos x (i * k + l) / c)%R) ->
  dot_row_col s w k o i j = (dot_row_col x w k o i j / c)%R.
Proof.
  intros H. unfold dot_row_col, Rdiv. rewrite <- rsum_scale.
  apply rsum_ext. intros l Hl. rewrite (H l Hl). unfold Rdiv. ring.
Qed.

(** X9: over exact arithmetic a [Linear] layer without a bias is
    additive: on two inputs of shape (n, in_size), the output for their
    sum is the sum of their outputs. *)
Theorem Linear_forward_additive
    (m : Linear.t) (x1 x2 : Tensor) (n : nat) (g : RandomState) :
  Linear_wf m -> Linear.use_bias m = false ->
  shape x1 = [n; Linear.in_size m] ->
  shape x2 = [n; Linear.in_size m] ->
  exists s o1 o2 o12,
    TensorOps.add x1 x2 = Ok s
    /\ returned (Linear.forward x1) (mkWorld m g) = Ok o1
    /\ returned (Linear.forward x2) (mkWorld m g) = Ok o2
    /\ returned (Linear.forward s) (mkWorld m g) = Ok o12
    /\ TensorOps.add o1 o2 = Ok o12.
Proof.
  intros Hwf Hu H1 H2.
  set (k := Linear.in_size m) in *. set (o := Linear.out_size m).
  do 4 eexists. unfold returned.
  split; [unfold TensorOps.add; apply (@zip_same Rplus x1 x2 [n; k] H1 H2)|].
  rewrite (@Linear_forward_no_bias m x1 n g Hwf Hu H1).
  rewrite (@Linear_forward_no_bias m x2 n g Hwf Hu H2).
  rewrite (@Linear_forward_no_bias m _ n g Hwf Hu) by reflexivity.
  cbn [fst]. repeat (split; [reflexivity|]).
  unfold TensorOps.add. rewrite (@zip_same Rplus _ _ [n; o]) by reflexivity.
  rewrite prod_2. f_equal. apply mk_tabulate_ext. intros p Hp.
  rewrite !at_pos_mk by assumption. symmetry.
  apply dot_row_col_plus. intros l Hl.
  apply at_pos_mk. rewrite prod_2. apply row_position; [|assumption].
  now apply div_lt_rows.
Qed.

Lemma Linear_forward_additive_witness :
  (Linear_wf (Linear.mk Sample.cpu 2 2 false (mkParam Sample.w22) None true)
   /\ shape Sample.x12 = [1; 2]) /\
  exists s o1 o12,
    TensorOps.add Sample.x12 Sample.x12 = Ok s
    /\ returned (Linear.forward Sample.x12)
                (mkWorld (Linear.mk Sample.cpu 2 2 false (mkParam Sample.w22)
                                    None true) Sample.tape) = Ok o1
    /\ returned (Linear.forward s)
                (mkWorld (Linear.mk Sample.cpu 2 2 false (mkParam Sample.w22)
                                    None true) Sample.tape) = Ok o12
    /\ TensorOps.add o1 o1 = Ok o12.
Proof.
  set (m := Linear.mk Sample.cpu 2 2 false (mkParam Sample.w22) None true).
  assert (Hwf : Linear_wf m) by (repeat split).
  assert (Hu : Linear.use_bias m = false) by reflexivity.
  assert (Hx : shape Sample.x12 = [1; Linear.in_size m]) by reflexivity.
  split; [split; assumption|].
  destruct (@Linear_forward_additive m Sample.x12 Sample.x12 1 Sample.tape
              Hwf Hu Hx Hx) as [s [o1 [o2 [o12 [Hs [H1 [H2 [H12 Hadd]]]]]]]].
  assert (o2 = o1) by congruence. subst o2.
  exists s, o1, o12. repeat split; assumption.
Defined.

(** X10: over exact arithmetic a [Linear] layer without a bias is
    homogeneous: dividing an input of shape (n, in_size) by a number
    divides the output by it. *)
Theorem Linear_forward_homogeneous
    (m : Linear.t) (x : Tensor) (n : nat) (c : R) (g : RandomState) :
  Linear_wf m -> Linear.use_bias m = false ->
  has_shape x [n; Linear.in_size m] ->
  exists out,
    returned (Linear.forward x) (mkWorld m g) = Ok out
    /\ returned (Linear.forward (TensorOps.truediv_scalar x c)) (mkWorld m g)
       = Ok (TensorOps.truediv_scalar out c).
Proof.
  intros Hwf Hu [Hx Hlen].
  unfold Tensor_wf, size in Hlen. rewrite Hx, prod_2 in Hlen.
  set (k := Linear.in_size m) in *. set (o := Linear.out_size m).
  eexists. unfold returned.
  rewrite (@Linear_forward_no_bias m x n g Hwf Hu Hx).
  rewrite (@Linear_forward_no_bias m (TensorOps.truediv_scalar x c) n g Hwf Hu Hx).
  cbn [fst]. split; [reflexivity|].
  unfold TensorOps.truediv_scalar at 2, TensorOps.map_scalar.
  cbn [shape data]. rewrite map_tabulate.
  do 2 f_equal. apply tabulate_ext. intros p Hp.
  apply dot_row_col_div. intros l Hl.
  assert (Hpos : (p / o) * k + l < length (data x))
    by (rewrite Hlen; apply row_position;
        [now apply div_lt_rows | assumption]).
  unfold at_pos, TensorOps.truediv_scalar, TensorOps.map_scalar. cbn [data].
  rewrite (nth_indep _ 0%R (0 / c)%R) by now rewrite length_map.
  apply (map_nth (fun v => (v / c)%R)).
Qed.

Lemma Linear_forward_homogeneous_witness :
  (Linear_wf (Linear.mk Sample.cpu 2 2 false (mkParam Sample.w22) None true)
   /\ has_shape Sample.x12 [1; 2]) /\
  exists out,
    returned (Linear.forward Sample.x12)
             (mkWorld (Linear.mk Sample.cpu 2 2 false (mkParam Sample.w22)
                                 None true) Sample.tape) = Ok out
    /\ returned (Linear.forward (TensorOps.truediv_scalar Sample.x12 4))
                (mkWorld (Linear.mk Sample.cpu 2 2 false (mkParam Sample.w22)
                                    None true) Sample.tape)
       = Ok (TensorOps.truediv_scalar out 4).
Proof.
  set (m := Linear.mk Sample.cpu 2 2 false (mkParam Sample.w22) None true).
  assert (Hwf : Linear_wf m) by (repeat split).
  assert (Hu : Linear.use_bias m = false) by reflexivity.
  assert (Hx : has_shape Sample.x12 [1; Linear.in_size m]) by (repeat split).
  split; [split; assumption|].
  apply (@Linear_forward_homogeneous m Sample.x12 1 4 Sample.tape Hwf Hu Hx).
Defined.

(** ** Equal tokens *)

(** One entry of the output of [Embedding.forward]: the entry of the
    weights in the row the token names. *)
Lemma Embedding_forward_entry
    (m : Embedding.t) (x : Tensor) (bs seq_len : nat) (g : RandomState) :
  Embedding_wf m ->
  has_shape x [bs; seq_len] ->
  class_indices (Embedding.num_embeddings m) x ->
  exists out,
    Embedding.forward x (mkWorld m g) = (Ok out, mkWorld m g)
    /\ forall b s j,
         b < bs -> s < seq_len -> j < Embedding.embedding_dim m ->
         exists k,
           k < Embedding.num_embeddings m
           /\ get x [b; s] = INR k
           /\ get out [b; s; j]
              = at_pos (value (Embedding.weights m))
                       (k * Embedding.embedding_dim m + j).
Proof.
  intros Hwf Hxs Hcls. eexists.
  split; [apply (@Embedding_forward_closed m x bs seq_len g Hwf Hxs Hcls)|].
  destruct Hwf as [HW _]. destruct Hxs as [Hx Hxwf].
  unfold Tensor_wf, size in Hxwf. rewrite Hx, prod_2 in Hxwf.
  intros b s j Hb Hs Hj.
  set (n := Embedding.num_embeddings m) in *.
  set (d := Embedding.embedding_dim m) in *.
  assert (Hq : b * seq_len + s < bs * seq_len) by now apply row_position.
  destruct (@class_indices_at n x (b * seq_len + s) Hcls) as [k [Hk Hv]];
    [lia|].
  exists k. split; [exact Hk|].
  split; [now rewrite (@get_2d _ bs seq_len) by assumption|].
  rewrite (@get_3d _ bs seq_len d) by reflexivity.
  rewrite at_pos_mk by (apply row_position; assumption).
  destruct (@div_mod_row d (b * seq_len + s) j Hj) as [-> ->].
  unfold dot_row_col.
  rewrite (rsum_ext _ (fun l => (if k =? l then 1 else 0)
                                * at_pos (value (Embedding.weights m)) (l * d + j))%R).
  - now rewrite rsum_pick by assumption.
  - intros l Hl. f_equal.
    rewrite at_pos_mk
      by (rewrite classes_of_length, Hxwf; apply row_position; assumption).
    destruct (@div_mod_row n (b * seq_len + s) l Hl) as [-> ->].
    rewrite (@nth_classes_of (data x) (b * seq_len + s) k) by (try lia; exact Hv).
    reflexivity.
Qed.

(** X11: [Embedding.forward] gives equal tokens equal vectors: when two
    positions of the input hold the same index, the output slices at
    the two positions agree, wherever the positions are. *)
Theorem Embedding_forward_same_token
    (m : Embedding.t) (x : Tensor) (bs seq_len : nat) (g : RandomState) :
  Embedding_wf m ->
  has_shape x [bs; seq_len] ->
  class_indices (Embedding.num_embeddings m) x ->
  exists out,
    returned (Embedding.forward x) (mkWorld m g) = Ok out
    /\ forall b s b' s' j,
         b < bs -> s < seq_len -> b' < bs -> s' < seq_len ->
         j < Embedding.embedding_dim m ->
         get x [b; s] = get x [b'; s'] ->
         get out [b; s; j] = get out [b'; s'; j].
Proof.
  intros Hwf Hxs Hcls.
  destruct (@Embedding_forward_entry m x bs seq_len g Hwf Hxs Hcls)
    as [out [Hrun Hentry]].
  exists out. unfold returned. rewrite Hrun. split; [reflexivity|].
  intros b s b' s' j Hb Hs Hb' Hs' Hj Heq.
  destruct (Hentry b s j Hb Hs Hj) as [k [_ [Hk ->]]].
  destruct (Hentry b' s' j Hb' Hs' Hj) as [k' [_ [Hk' ->]]].
  assert (k = k') by (apply INR_eq; congruence).
  now subst k'.
Qed.

Lemma Embedding_forward_same_token_witness :
  (Embedding_wf Sample.embedding
   /\ has_shape (mkTensor [2; 2] [INR 1; INR 0; INR 0; INR 1]) [2; 2]
   /\ class_indices (Embedding.num_embeddings Sample.embedding)
                     (mkTensor [2; 2] [INR 1; INR 0; INR 0; INR 1])
   /\ get (mkTensor [2; 2] [INR 1; INR 0; INR 0; INR 1]) [0; 0]
       = get (mkTensor [2; 2] [INR 1; INR 0; INR 0; INR 1]) [1; 1]) /\
  exists out,
    returned (Embedding.forward (mkTensor [2; 2] [INR 1; INR 0; INR 0; INR 1]))
             (mkWorld Sample.embedding Sample.tape) = Ok out
    /\ get out [0; 0; 0] = get out [1; 1; 0]
    /\ get out [0; 0; 1] = get out [1; 1; 1].
Proof.
  set (x := mkTensor [2; 2] [INR 1; INR 0; INR 0; INR 1]).
  assert (Hwf : Embedding_wf Sample.embedding) by (repeat split).
  assert (Hx : has_shape x [2; 2]) by (repeat split).
  assert (Hc : class_indices (Embedding.num_embeddings Sample.embedding) x).
  { repeat constructor;
      [exists 1 | exists 0 | exists 0 | exists 1];
      (split; [cbn; lia | reflexivity]). }
  assert (Heq : get x [0; 0] = get x [1; 1]) by reflexivity.
  split; [repeat split; assumption|].
  destruct (@Embedding_forward_same_token Sample.embedding x 2 2
              Sample.tape Hwf Hx Hc) as [out [Hrun Hsame]].
  exists out. split; [exact Hrun|].
  split; apply Hsame; try (cbn; lia); exact Heq.
Defined.

(** ** An input of width 1 *)

Lemma shape_broadcast_outer (n d : nat) :
  Shape.shape_broadcast [n; 1] [d] = Ok [n; d].
Proof.
  unfold Shape.shape_broadcast. cbn [rev app Shape.broadcast_rev].
  unfold Shape.dim_broadcast.
  destruct (1 =? d) eqn:E.
  - apply Nat.eqb_eq in E. subst d. reflexivity.
  - reflexivity.
Qed.

(** [(n, 1)] against [(d,)]: both operands are broadcast. *)
Lemma zip_outer (f : R -> R -> R) (a b : Tensor) (n d : nat) :
  shape a = [n; 1] -> shape b = [d] ->
  TensorOps.zip f a b
  = Ok (mkTensor [n; d]
          (tabulate (n * d) (fun p => f (at_pos a (p / d)) (at_pos b (p mod d))))).
Proof.
  intros Ha Hb. unfold TensorOps.zip, get.
  rewrite Ha, Hb, shape_broadcast_outer. cbn [rbind].
  rewrite prod_2. do 2 f_equal. apply tabulate_ext. intros p Hp. cbv zeta.
  rewrite broadcast_index_column by assumption.
  now rewrite broadcast_index_vector.
Qed.

(** X12: [LayerNorm1d.forward] takes the width from the input and does not
    compare it with [self.dim].  On an input of shape (bs, 1), with a
    positive [eps], the single entry of each row is its own mean, and
    the result is broadcast against the parameters: the output has shape
    (bs, dim) and every row of it is the bias. *)
Theorem LayerNorm1d_forward_width_one
    (m : LayerNorm1d.t) (x : Tensor) (n : nat) (g : RandomState) :
  (0 < LayerNorm1d.eps m)%R ->
  LayerNorm1d_wf m ->
  shape x = [n; 1] ->
  exists out,
    returned (LayerNorm1d.forward x) (mkWorld m g) = Ok out
    /\ shape out = [n; LayerNorm1d.dim m]
    /\ forall i, i < n -> row out i = data (value (LayerNorm1d.bias m)).
Proof.
  intros _ [[HW _] [HB HBwf]] Hx.
  set (d := LayerNorm1d.dim m) in *.
  unfold Tensor_wf, size in HBwf. rewrite HB in HBwf.
  cbn [Shape.prod] in HBwf. rewrite Nat.mul_1_r in HBwf.
  assert (Hrun :
    LayerNorm1d.forward x (mkWorld m g)
    = (Ok (mkTensor [n; d]
             (tabulate (n * d) (fun p =>
                at_pos (value (LayerNorm1d.bias m)) (p mod d)))),
       mkWorld m g)).
  { unfold LayerNorm1d.forward, bind, lift, reads.
    rewrite Hx. cbn [unpack2 self].
    rewrite (mean_rows x Hx).
    rewrite view_same_size
      by (cbn [data Shape.prod]; rewrite tabulate_length; lia).
    cbn [data]. unfold TensorOps.sub.
    rewrite (@zip_column Rminus x _ n 1) by (reflexivity || assumption).
    rewrite (@mk_tabulate_ext [n; 1] (n * 1) _ (fun _ => 0%R)).
    2:{ intros p Hp. rewrite Nat.div_1_r.
        rewrite at_pos_mk by lia. rewrite rsum_1.
        replace (p * 1 + 0) with p by lia. cbn [INR]. field. }
    unfold TensorOps.mul at 1.
    rewrite (@zip_same Rmult _ _ [n; 1]) by reflexivity.
    rewrite prod_2.
    rewrite (@mean_rows _ n 1) by reflexivity.
    rewrite view_same_size
      by (cbn [data Shape.prod]; rewrite tabulate_length; lia).
    cbn [data].
    unfold TensorOps.pow_scalar, TensorOps.add_scalar, TensorOps.map_scalar.
    cbn [data shape]. rewrite !map_tabulate.
    unfold TensorOps.truediv.
    rewrite (@zip_column Rdiv _ _ n 1) by reflexivity.
    rewrite (@mk_tabulate_ext [n; 1] (n * 1) _ (fun _ => 0%R)).
    2:{ intros p Hp. rewrite at_pos_mk by assumption.
        unfold Rdiv. ring. }
    unfold TensorOps.mul, TensorOps.add.
    rewrite (@zip_outer Rmult _ (value (LayerNorm1d.weights m)) n d)
      by (reflexivity || assumption).
    rewrite (@zip_vector Rplus _ (value (LayerNorm1d.bias m)) n d)
      by (reflexivity || assumption).
    do 2 f_equal. apply mk_tabulate_ext. intros p Hp.
    rewrite !at_pos_mk
      by (try assumption; rewrite Nat.mul_1_r; now apply div_lt_rows).
    ring. }
  eexists. unfold returned. rewrite Hrun. cbn [fst].
  split; [reflexivity|]. split; [reflexivity|].
  intros i Hi. unfold row. cbn [shape data nth].
  rewrite tabulate_window by assumption.
  rewrite <- (tabulate_nth (data (value (LayerNorm1d.bias m))) 0%R), HBwf.
  apply tabulate_ext. intros j Hj.
  now destruct (@div_mod_row d i j Hj) as [_ ->].
Qed.

Lemma LayerNorm1d_forward_width_one_witness :
  ((0 < LayerNorm1d.eps Sample.layer_norm)%R
   /\ LayerNorm1d_wf Sample.layer_norm
   /\ shape Sample.tokens = [1; 1]) /\
  exists out,
    returned (LayerNorm1d.forward Sample.tokens)
             (mkWorld Sample.layer_norm Sample.tape) = Ok out
    /\ shape out = [1; 2].
Proof.
  assert (He : (0 < LayerNorm1d.eps Sample.layer_norm)%R) by (cbn; lra).
  assert (Hwf : LayerNorm1d_wf Sample.layer_norm) by apply LayerNorm1d_init_wf.
  assert (Hx : shape Sample.tokens = [1; 1]) by reflexivity.
  split; [repeat split; assumption|].
  destruct (@LayerNorm1d_forward_width_one Sample.layer_norm Sample.tokens 1
              Sample.tape He Hwf Hx) as [out [Hrun [Hshape _]]].
  exists out. split; assumption.
Defined.

(** ** Construction followed by [forward] *)

(** X13: what the constructors build is what the [forward] methods need.
    An [Embedding] just built returns on every (bs, seq_len) input of
    in-range indices, a [Linear] just built with [in_size] at least 1
    returns on every (n, in_size) input, and a [LayerNorm1d] just built
    returns on every (n, dim) input, each with the documented output
    shape. *)
Theorem constructed_modules_run
    (nv d i o dim : nat) (b : bool) (eps : R) (be : TensorBackend)
    (g : RandomState) (xe xl xn : Tensor) (bs seq_len nl nn : nat) :
  0 < i ->
  has_shape xe [bs; seq_len] -> class_indices nv xe ->
  shape xl = [nl; i] ->
  shape xn = [nn; dim] ->
  (exists m g' out,
     Embedding.__init__ nv d be g = (Ok m, g')
     /\ Embedding.forward xe (mkWorld m g') = (Ok out, mkWorld m g')
     /\ shape out = [bs; seq_len; d]) /\
  (exists m g' out,
     Linear.__init__ i o b be g = (Ok m, g')
     /\ Linear.forward xl (mkWorld m g') = (Ok out, mkWorld m g')
     /\ shape out = [nl; o]) /\
  (exists out,
     LayerNorm1d.forward xn (mkWorld (LayerNorm1d.__init__ dim eps be) g)
     = (Ok out, mkWorld (LayerNorm1d.__init__ dim eps be) g)
     /\ shape out = [nn; dim]).
Proof.
  intros Hi Hxe Hcls Hxl Hxn. split; [|split].
  - destruct (Embedding_init_wf nv d be g) as [m [g' [Hrun [Hn [Hd Hwf]]]]].
    exists m, g'. eexists. split; [exact Hrun|].
    rewrite <- Hn in Hcls.
    rewrite (@Embedding_forward_closed m xe bs seq_len g' Hwf Hxe Hcls).
    cbv zeta. rewrite Hd. split; reflexivity.
  - destruct (@Linear_init_wf i o b be g Hi) as [m [g' [Hrun [Hin [Ho [_ Hwf]]]]]].
    exists m, g'. eexists. split; [exact Hrun|].
    rewrite <- Hin in Hxl.
    rewrite (@Linear_forward_closed m xl nl g' Hwf Hxl).
    rewrite Ho. split; reflexivity.
  - eexists.
    rewrite (@LayerNorm1d_forward_closed (LayerNorm1d.__init__ dim eps be) xn nn g
               (LayerNorm1d_init_wf dim eps be) Hxn).
    split; reflexivity.
Qed.

Lemma constructed_modules_run_witness :
  (0 < 2
   /\ has_shape Sample.tokens [1; 1] /\ class_indices 2 Sample.tokens
   /\ shape Sample.x12 = [1; 2]) /\
  exists m g' out,
    Linear.__init__ 2 3 true Sample.cpu Sample.tape = (Ok m, g')
    /\ Linear.forward Sample.x12 (mkWorld m g') = (Ok out, mkWorld m g')
    /\ shape out = [1; 3].
Proof.
  assert (Hi : 0 < 2) by lia.
  assert (Hxe : has_shape Sample.tokens [1; 1]) by (repeat split).
  assert (Hc : class_indices 2 Sample.tokens).
  { constructor; [|constructor]. exists 1. split; [lia | reflexivity]. }
  assert (Hx : shape Sample.x12 = [1; 2]) by reflexivity.
  split; [repeat split; assumption|].
  apply (@constructed_modules_run 2 2 2 3 2 true 1 Sample.cpu Sample.tape
           Sample.tokens Sample.x12 Sample.x12 1 1 1 1 Hi Hxe Hc Hx Hx).
Defined.
